(** * Repair-request backend: response interpretation, completion client, gateway

    A shallow embedding of [agents/repair_agent.py], [agents/claude_api.py]
    and [agents/main.py], and the properties of their decision logic.

    Python values are a tagged union ([PyVal]); a call either returns a
    value or raises ([outcome]); [try ... except] is [try_except].  Calls
    of [logger] only write to the log and are left out, except where
    building the logged text can itself raise (a [len] of a value that has
    no length, a [str] of an integer of more than 4300 digits).  The
    Python runtime functions the code relies on but that are not part of
    the repository ([json.loads], [repr]) are the fields of [Runtime];
    the prompt file, the process environment and the HTTP call are the
    fields of [World]. *)

From Stdlib Require Import ZArith Ascii String Floats.SpecFloat.
From stdpp Require Import base option list strings pretty.

Set Warnings "-register-all".
Open Scope string_scope.

(** ** Python values, exceptions and the builtins the code uses *)

Module Py.

(** The values [json.loads] (and [yaml.safe_load], on the documents this
    program reads) can produce, [None] among them.  A [str] is held as its UTF-8 text; a
    [float] as an IEEE binary64 value; a [dict] has [str] keys and keeps
    them in insertion order. *)
Inductive PyVal : Type :=
  | PyNone
  | PyBool (b : bool)
  | PyInt (n : Z)
  | PyFloat (f : spec_float)
  | PyStr (s : string)
  | PyList (l : list PyVal)
  | PyDict (d : list (string * PyVal)).

(** [d[key]] on the items of a dict, when the key is there. *)
Fixpoint item (d : list (string * PyVal)) (key : string) : option PyVal :=
  match d with
  | [] => None
  | (k, v) :: r => if String.eqb k key then Some v else item r key
  end.

(** [d[key] = v]: a key already there keeps its place. *)
Fixpoint set_item (d : list (string * PyVal)) (key : string) (v : PyVal)
    : list (string * PyVal) :=
  match d with
  | [] => [(key, v)]
  | (k, w) :: r =>
      if String.eqb k key then (k, v) :: r else (k, w) :: set_item r key v
  end.

Definition has_key (d : list (string * PyVal)) (key : string) : bool :=
  match item d key with Some _ => true | None => false end.

(** Exception classes.  All of them derive from [Exception];
    [JSONDecodeError] derives from [ValueError]. *)
Inductive exn_class : Type :=
  | ValueError
  | JSONDecodeError
  | TypeError
  | AttributeError
  | KeyError
  | IndexError
  | RecursionError
  | FileNotFoundError
  | RequestException
  | OtherException.

#[global] Instance exn_class_eq_dec : EqDecision exn_class.
Proof. solve_decision. Defined.

(** An exception object: its class and what [str(e)] gives.  The
    texts of the exceptions of the builtins are those of CPython 3.12. *)
Record exn : Type := Exn { exn_cls : exn_class; exn_str : string }.

Inductive outcome (A : Type) : Type :=
  | Return (a : A)
  | Raise (e : exn).
Arguments Return {A} a.
Arguments Raise {A} e.

(** Sequencing: the first exception raised ends the computation. *)
Definition bind {A B} (m : outcome A) (k : A -> outcome B) : outcome B :=
  match m with
  | Return a => k a
  | Raise e => Raise e
  end.

Declare Scope py_scope.
Delimit Scope py_scope with py.
Bind Scope py_scope with outcome.
Notation "'do' x <- m ;; k" := (bind m (fun x => k))
  (at level 10, x pattern, m at level 99, k at level 200) : py_scope.

Definition subclass (c base : exn_class) : bool :=
  bool_decide (c = base)
  || (bool_decide (c = JSONDecodeError) && bool_decide (base = ValueError)).

(** [except (C1, C2, ...)] matches an exception of a subclass of one of
    the listed classes. *)
Definition isinstance_exn (e : exn) (classes : list exn_class) : bool :=
  existsb (subclass (exn_cls e)) classes.

(** [except Exception] matches every exception of the model. *)
Definition is_Exception (e : exn) : bool := true.

(** [try: body  except <handles> as e: handler e] *)
Definition try_except {A} (body : outcome A) (handles : exn -> bool)
    (handler : exn -> outcome A) : outcome A :=
  match body with
  | Return a => Return a
  | Raise e => if handles e then handler e else Raise e
  end.

(** A [try] with two [except] clauses: the first clause that matches
    handles the exception. *)
Definition try_except2 {A} (body : outcome A)
    (handles1 : exn -> bool) (handler1 : exn -> outcome A)
    (handles2 : exn -> bool) (handler2 : exn -> outcome A) : outcome A :=
  match body with
  | Return a => Return a
  | Raise e =>
      if handles1 e then handler1 e
      else if handles2 e then handler2 e
      else Raise e
  end.

(** [type(v).__name__] *)
Definition type_name (v : PyVal) : string :=
  match v with
  | PyNone => "NoneType"
  | PyBool _ => "bool"
  | PyInt _ => "int"
  | PyFloat _ => "float"
  | PyStr _ => "str"
  | PyList _ => "list"
  | PyDict _ => "dict"
  end.

(** The classes used with [isinstance] in the sources. *)
Inductive pytype : Type := Tbool | Tstr | Tlist | Tdict.

Definition isinstance (v : PyVal) (t : pytype) : bool :=
  match t, v with
  | Tbool, PyBool _ => true
  | Tstr, PyStr _ => true
  | Tlist, PyList _ => true
  | Tdict, PyDict _ => true
  | _, _ => false
  end.

(** [v is True], [v is False], [v is None] *)
Definition is_True (v : PyVal) : bool :=
  match v with PyBool true => true | _ => false end.
Definition is_False (v : PyVal) : bool :=
  match v with PyBool false => true | _ => false end.
Definition is_None (v : PyVal) : bool :=
  match v with PyNone => true | _ => false end.

(** The truth value of a list: it has an element. *)
Definition nonempty {A} (l : list A) : bool :=
  match l with [] => false | _ => true end.

Definition float_is_zero (f : spec_float) : bool :=
  match f with S754_zero _ => true | _ => false end.

(** [bool(v)]: the truth value used by [if v], [not v], [a and b]. *)
Definition truthy (v : PyVal) : bool :=
  match v with
  | PyNone => false
  | PyBool b => b
  | PyInt n => negb (n =? 0)%Z
  | PyFloat f => negb (float_is_zero f)
  | PyStr s => negb (String.eqb s "")
  | PyList l => nonempty l
  | PyDict d => nonempty d
  end.

(** [str.lower] on the ASCII letters.  (On other characters Python's
    [lower] may change the text, but never into one of the ASCII words
    this program compares the result with.) *)
Definition lower_ascii (c : ascii) : ascii :=
  let n := N_of_ascii c in
  if ((65 <=? n) && (n <=? 90))%N then ascii_of_N (n + 32) else c.

Fixpoint lower (s : string) : string :=
  match s with
  | EmptyString => EmptyString
  | String c r => String (lower_ascii c) (lower r)
  end.

(** [needle in hay] for two [str]. *)
Fixpoint substring_of (needle hay : string) : bool :=
  if String.prefix needle hay then true
  else match hay with
       | EmptyString => false
       | String _ r => substring_of needle r
       end.

(** [x == key] for a value [x] and a [str] [key]. *)
Definition eq_str (x : PyVal) (key : string) : bool :=
  match x with PyStr s => String.eqb s key | _ => false end.

(** [key in c] for a [str] [key]: key membership in a dict, substring
    test in a str, element test in a list, [TypeError] otherwise. *)
Definition contains (key : string) (c : PyVal) : outcome bool :=
  match c with
  | PyDict d => Return (has_key d key)
  | PyStr s => Return (substring_of key s)
  | PyList l => Return (existsb (fun x => eq_str x key) l)
  | _ => Raise (Exn TypeError
                  ("argument of type '" ++ type_name c ++ "' is not iterable"))
  end.

Definition no_attribute (c : PyVal) (attr : string) : exn :=
  Exn AttributeError
    ("'" ++ type_name c ++ "' object has no attribute '" ++ attr ++ "'").

(** [c.get(key, dflt)]; [c.get(key)] is [get c key PyNone]. *)
Definition get (c : PyVal) (key : string) (dflt : PyVal) : outcome PyVal :=
  match c with
  | PyDict d => Return (default dflt (item d key))
  | _ => Raise (no_attribute c "get")
  end.

(** [v.lower()] *)
Definition str_lower (v : PyVal) : outcome string :=
  match v with
  | PyStr s => Return (lower s)
  | _ => Raise (no_attribute v "lower")
  end.

(** [c[key]] for a [str] [key]. *)
Definition getitem (c : PyVal) (key : string) : outcome PyVal :=
  match c with
  | PyDict d =>
      match item d key with
      | Some v => Return v
      | None => Raise (Exn KeyError ("'" ++ key ++ "'"))
      end
  | PyStr _ =>
      Raise (Exn TypeError "string indices must be integers, not 'str'")
  | PyList _ =>
      Raise (Exn TypeError "list indices must be integers or slices, not str")
  | _ => Raise (Exn TypeError
                  ("'" ++ type_name c ++ "' object is not subscriptable"))
  end.

(** [l[0]] for a list [l]. *)
Definition first_item (l : list PyVal) : outcome PyVal :=
  match l with
  | x :: _ => Return x
  | [] => Raise (Exn IndexError "list index out of range")
  end.

(** [len(v)]; only whether it raises matters to this program. *)
Definition len (v : PyVal) : outcome Z :=
  match v with
  | PyStr s => Return (Z.of_nat (String.length s))
  | PyList l => Return (Z.of_nat (length l))
  | PyDict d => Return (Z.of_nat (length d))
  | _ => Raise (Exn TypeError
                  ("object of type '" ++ type_name v ++ "' has no len()"))
  end.

(** The least integer of more than 4300 digits, [10 ^ 4300]. *)
Definition int_max_str : Z := Eval vm_compute in (10 ^ 4300)%Z.

(** [str(n)] for an [int]: the decimal, unless it has more than 4300
    digits. *)
Definition int_to_str (n : Z) : outcome string :=
  if (int_max_str <=? Z.abs n)%Z then
    Raise (Exn ValueError
             "Exceeds the limit (4300 digits) for integer string conversion; use sys.set_int_max_str_digits() to increase the limit")
  else Return (pretty n).

(** [str(fields)] for a list of field names (plain identifiers, so the
    [repr] of each is the name between single quotes). *)
Definition str_of_names (fields : list string) : string :=
  "[" ++ String.concat ", " (map (fun f => "'" ++ f ++ "'") fields) ++ "]".

End Py.

Import Py.
Open Scope py_scope.

(** ** A decoder for JSON texts

    [json.loads] belongs to the Python runtime, so the development is
    stated for any decoder ([Runtime] below).  [Json.loads] is the decoder
    it is instantiated with in the examples: it follows the scanner of
    [json.decoder] (whitespace, the three literals, numbers, strings with
    their escapes, arrays, objects with the last duplicate key winning,
    the constants NaN, Infinity, -Infinity, the limit of 4300 digits
    on an integer and a limit on nesting).  The position that
    CPython appends to the text of a [JSONDecodeError] is left out; the
    program never reads it. *)

Module Json.

Definition dquote : ascii := "034"%char.
Definition backslash : ascii := "092"%char.

Definition is_ws (c : ascii) : bool :=
  match c with
  | " "%char | "009"%char | "010"%char | "013"%char => true
  | _ => false
  end.

Fixpoint skip_ws (s : string) : string :=
  match s with
  | String c r => if is_ws c then skip_ws r else s
  | EmptyString => s
  end.

Definition is_digit (c : ascii) : bool :=
  let n := N_of_ascii c in ((48 <=? n) && (n <=? 57))%N.

(** The characters a JSON value can begin with. *)
Definition value_start_char (c : ascii) : bool :=
  is_digit c
  || match c with
     | "034"%char | "{"%char | "["%char | "-"%char
     | "t"%char | "f"%char | "n"%char | "N"%char | "I"%char => true
     | _ => false
     end.

(** The text begins, after whitespace, as a JSON value does. *)
Definition value_start (s : string) : bool :=
  match skip_ws s with
  | String c _ => value_start_char c
  | EmptyString => false
  end.

Definition decode_error (msg : string) : exn := Exn JSONDecodeError msg.

Fixpoint strip_prefix (p s : string) : option string :=
  match p, s with
  | EmptyString, _ => Some s
  | String a p', String b s' =>
      if Ascii.eqb a b then strip_prefix p' s' else None
  | String _ _, EmptyString => None
  end.

(** *** Strings *)

Definition hex_digit (c : ascii) : option N :=
  let n := N_of_ascii c in
  if ((48 <=? n) && (n <=? 57))%N then Some (n - 48)%N
  else if ((65 <=? n) && (n <=? 70))%N then Some (n - 55)%N
  else if ((97 <=? n) && (n <=? 102))%N then Some (n - 87)%N
  else None.

Definition hex4 (a b c d : ascii) : option N :=
  x ← hex_digit a; y ← hex_digit b; z ← hex_digit c; w ← hex_digit d;
  Some (((x * 16 + y) * 16 + z) * 16 + w)%N.

Definition byte (n : N) : ascii := ascii_of_N n.

(** [chr(cp)], as UTF-8 text. *)
Definition utf8 (cp : N) : string :=
  if (cp <? 128)%N then String (byte cp) ""
  else if (cp <? 2048)%N then
    String (byte (192 + cp / 64)) (String (byte (128 + cp mod 64)) "")
  else if (cp <? 65536)%N then
    String (byte (224 + cp / 4096))
      (String (byte (128 + (cp / 64) mod 64))
         (String (byte (128 + cp mod 64)) ""))
  else
    String (byte (240 + cp / 262144))
      (String (byte (128 + (cp / 4096) mod 64))
         (String (byte (128 + (cp / 64) mod 64))
            (String (byte (128 + cp mod 64)) ""))).

Definition simple_escape (c : ascii) : option ascii :=
  match c with
  | "034"%char => Some dquote
  | "092"%char => Some backslash
  | "/"%char => Some "/"%char
  | "b"%char => Some "008"%char
  | "f"%char => Some "012"%char
  | "n"%char => Some "010"%char
  | "r"%char => Some "013"%char
  | "t"%char => Some "009"%char
  | _ => None
  end.

Definition is_high_surrogate (u : N) : bool := ((55296 <=? u) && (u <=? 56319))%N.
Definition is_low_surrogate (u : N) : bool := ((56320 <=? u) && (u <=? 57343))%N.

(** [scanstring]: the text up to the closing quote, decoded, and the
    text after the quote.  [s] starts just after the opening quote. *)
Fixpoint scanstring (s : string) : outcome (string * string) :=
  match s with
  | EmptyString => Raise (decode_error "Unterminated string starting at")
  | String "034" r => Return ("", r)
  | String "092" EmptyString =>
      Raise (decode_error "Unterminated string starting at")
  | String "092" (String "u" r) =>
      match r with
      | String a (String b (String c (String d r'))) =>
          match hex4 a b c d with
          | None => Raise (decode_error "Invalid \uXXXX escape")
          | Some u =>
              let plain := do (t, rest) <- scanstring r';; Return (utf8 u ++ t, rest) in
              if is_high_surrogate u then
                match r' with
                | String "092" (String "u"
                    (String a2 (String b2 (String c2 (String d2 r''))))) =>
                    match hex4 a2 b2 c2 d2 with
                    | None => Raise (decode_error "Invalid \uXXXX escape")
                    | Some u2 =>
                        if is_low_surrogate u2 then
                          do (t, rest) <- scanstring r'';;
                          Return (utf8 (65536 + (u - 55296) * 1024 + (u2 - 56320)) ++ t, rest)
                        else plain
                    end
                | String "092" (String "u" _) =>
                    Raise (decode_error "Invalid \uXXXX escape")
                | _ => plain
                end
              else plain
          end
      | _ => Raise (decode_error "Invalid \uXXXX escape")
      end
  | String "092" (String e r) =>
      match simple_escape e with
      | Some c => do (t, rest) <- scanstring r;; Return (String c t, rest)
      | None => Raise (decode_error "Invalid \escape")
      end
  | String c r =>
      if (N_of_ascii c <? 32)%N
      then Raise (decode_error "Invalid control character at")
      else do (t, rest) <- scanstring r;; Return (String c t, rest)
  end.

(** *** Numbers: an optional minus sign and an integer part, then an
    optional fraction and an optional exponent *)

(** The longest run of digits at the start of [s], and the rest. *)
Fixpoint span_digits (s : string) : string * string :=
  match s with
  | String c r =>
      if is_digit c then let '(ds, rest) := span_digits r in (String c ds, rest)
      else ("", s)
  | EmptyString => ("", s)
  end.

Definition digit_value (c : ascii) : Z := Z.of_N (N_of_ascii c) - 48.

Fixpoint digits_value (acc : Z) (ds : string) : Z :=
  match ds with
  | EmptyString => acc
  | String c r => digits_value (acc * 10 + digit_value c) r
  end.

(** The integer part: [0], or a non-zero digit followed by digits. *)
Definition int_part (s : string) : option (string * string) :=
  match s with
  | String "0" r => Some ("0", r)
  | String c _ => if is_digit c then Some (span_digits s) else None
  | EmptyString => None
  end.

(** The fraction: a dot and at least one digit; absent otherwise. *)
Definition frac_part (s : string) : string * string :=
  match s with
  | String "." r =>
      match span_digits r with
      | (EmptyString, _) => ("", s)
      | (ds, rest) => (ds, rest)
      end
  | _ => ("", s)
  end.

(** The exponent: e or E, an optional sign, at least one digit. *)
Definition exp_part (s : string) : option Z * string :=
  match s with
  | String c r =>
      if Ascii.eqb c "e" || Ascii.eqb c "E" then
        let '(neg, r1) :=
          match r with
          | String "-" r' => (true, r')
          | String "+" r' => (false, r')
          | _ => (false, r)
          end in
        match span_digits r1 with
        | (EmptyString, _) => (None, s)
        | (ds, rest) =>
            let e := digits_value 0 ds in
            (Some (if neg then - e else e)%Z, rest)
        end
      else (None, s)
  | EmptyString => (None, s)
  end.

(** [float(text)] for the decimal [(-1)^neg * m * 10^e]: the nearest
    binary64 value, ties to even. *)
Definition float_of_decimal (neg : bool) (m e : Z) : spec_float :=
  match m with
  | Zpos p =>
      if (0 <=? e)%Z
      then binary_normalize 53 1024 ((if neg then -1 else 1) * m * 10 ^ e) 0 neg
      else match (10 ^ (- e))%Z with
           | Zpos q => SFdiv 53 1024 (S754_finite neg p 0) (S754_finite false q 0)
           | _ => S754_nan
           end
  | _ => S754_zero neg
  end.

(** [int(text)] refuses a text of more than 4300 digits. *)
Definition too_many_digits (digits : nat) : exn :=
  Exn ValueError
    ("Exceeds the limit (4300 digits) for integer string conversion: value has "
     ++ pretty digits
     ++ " digits; use sys.set_int_max_str_digits() to increase the limit").

(** A number at the start of [s], if there is one: its value, or the
    exception of its conversion, and the text after it. *)
Definition number (s : string) : option (outcome (PyVal * string)) :=
  let '(neg, s1) :=
    match s with String "-" r => (true, r) | _ => (false, s) end in
  '(ip, s2) ← int_part s1;
  let '(fp, s3) := frac_part s2 in
  let '(ep, s4) := exp_part s3 in
  match fp, ep with
  | EmptyString, None =>
      if (4300 <? String.length ip)%nat
      then Some (Raise (too_many_digits (String.length ip)))
      else
        let n := digits_value 0 ip in
        Some (Return (PyInt (if neg then - n else n), s4))
  | _, _ =>
      let m := digits_value 0 (ip ++ fp) in
      let e := (default 0 ep - Z.of_nat (String.length fp))%Z in
      Some (Return (PyFloat (float_of_decimal neg m e), s4))
  end.

(** *** Values *)

Definition expecting_value : exn := decode_error "Expecting value".

Definition out_of_fuel {A} : outcome A :=
  Raise (Exn RecursionError "maximum recursion depth exceeded").

(** Objects and arrays nested deeper than the interpreter allows. *)
Definition too_deep (what : string) : exn :=
  Exn RecursionError
    ("maximum recursion depth exceeded while decoding a JSON " ++ what
     ++ " from a unicode string").

(** How deep objects and arrays may nest.  (The depth at which CPython
    gives up depends on its version and on the calls in progress; it
    is of this order.) *)
Definition nesting_limit : nat := 1000.

(** [scan_once] with the loops of [JSONObject] and [JSONArray].  Each
    returns the decoded value and the text after it.  [members] and
    [items] are entered where a key, respectively an element, is due.
    [depth] is how many more objects or arrays may be entered; [fuel]
    bounds the number of calls and does not run out. *)
Fixpoint scan_once (fuel depth : nat) (s : string)
    : outcome (PyVal * string) :=
  match fuel with
  | O => out_of_fuel
  | S fuel =>
      match s with
      | EmptyString => Raise expecting_value
      | String "034" r => do (t, rest) <- scanstring r;; Return (PyStr t, rest)
      | String "{" r =>
          match depth with
          | O => Raise (too_deep "object")
          | S depth =>
              match skip_ws r with
              | String "}" rest => Return (PyDict [], rest)
              | r1 => members fuel depth [] r1
              end
          end
      | String "[" r =>
          match depth with
          | O => Raise (too_deep "array")
          | S depth =>
              match skip_ws r with
              | String "]" rest => Return (PyList [], rest)
              | r1 => items fuel depth [] r1
              end
          end
      | _ =>
          match strip_prefix "null" s, strip_prefix "true" s,
                strip_prefix "false" s with
          | Some rest, _, _ => Return (PyNone, rest)
          | _, Some rest, _ => Return (PyBool true, rest)
          | _, _, Some rest => Return (PyBool false, rest)
          | None, None, None =>
              match number s with
              | Some r => r
              | None =>
                  match strip_prefix "NaN" s, strip_prefix "Infinity" s,
                        strip_prefix "-Infinity" s with
                  | Some rest, _, _ => Return (PyFloat S754_nan, rest)
                  | _, Some rest, _ => Return (PyFloat (S754_infinity false), rest)
                  | _, _, Some rest => Return (PyFloat (S754_infinity true), rest)
                  | None, None, None => Raise expecting_value
                  end
              end
          end
      end
  end
with members (fuel depth : nat) (d : list (string * PyVal)) (s : string)
    : outcome (PyVal * string) :=
  match fuel with
  | O => out_of_fuel
  | S fuel =>
      match s with
      | String "034" r =>
          do (key, r1) <- scanstring r;;
          match skip_ws r1 with
          | String ":" r2 =>
              do (v, r3) <- scan_once fuel depth (skip_ws r2);;
              let d' := set_item d key v in
              match skip_ws r3 with
              | String "}" rest => Return (PyDict d', rest)
              | String "," r4 => members fuel depth d' (skip_ws r4)
              | _ => Raise (decode_error "Expecting ',' delimiter")
              end
          | _ => Raise (decode_error "Expecting ':' delimiter")
          end
      | _ => Raise (decode_error
                      "Expecting property name enclosed in double quotes")
      end
  end
with items (fuel depth : nat) (acc : list PyVal) (s : string)
    : outcome (PyVal * string) :=
  match fuel with
  | O => out_of_fuel
  | S fuel =>
      do (v, r1) <- scan_once fuel depth s;;
      match skip_ws r1 with
      | String "]" rest => Return (PyList (acc ++ [v]), rest)
      | String "," r2 => items fuel depth (acc ++ [v]) (skip_ws r2)
      | _ => Raise (decode_error "Expecting ',' delimiter")
      end
  end.

Definition utf8_bom : string :=
  String "239" (String "187" (String "191" "")).

(** [json.loads(s)] for a [str] [s]. *)
Definition loads (s : string) : outcome PyVal :=
  if String.prefix utf8_bom s
  then Raise (decode_error "Unexpected UTF-8 BOM (decode using utf-8-sig)")
  else
    do (v, rest) <-
      scan_once (2 * String.length s + 2) nesting_limit (skip_ws s);;
    match skip_ws rest with
    | EmptyString => Return v
    | _ => Raise (decode_error "Extra data")
    end.

(** JSON text for the examples: [q s] is [s] between double quotes. *)
Definition q (s : string) : string := String dquote s ++ String dquote "".

End Json.


(** ** The Python runtime *)

(** [json.loads] on a [str] and [repr] are taken as given: [repr] of
    a value, which raises on an integer of more than 4300 digits or on
    a value nested too deep, and [repr] of a [str], which does not
    raise.  What is assumed of [json.loads] is that a text it decodes
    begins, after whitespace, with the first character of a JSON
    value. *)
Class Runtime : Type := {
  json_loads : string -> outcome PyVal;
  py_repr : PyVal -> outcome string;
  str_repr : string -> string;
  json_loads_start :
    forall s v, json_loads s = Return v -> Json.value_start s = true
}.

Section Builtins.
Context {rt : Runtime}.

(** [str(v)], also what an f-string puts for [{v}]: the text itself
    for a [str]; for the other values [str] is [repr], written out
    where it is a fixed word or a decimal. *)
Definition str (v : PyVal) : outcome string :=
  match v with
  | PyStr s => Return s
  | PyNone => Return "None"
  | PyBool true => Return "True"
  | PyBool false => Return "False"
  | PyInt n => int_to_str n
  | _ => py_repr v
  end.

(** [KeyError(msg)]: [str] of a [KeyError] is the [repr] of its argument. *)
Definition key_error (msg : string) : exn := Exn KeyError (str_repr msg).

End Builtins.

(** ** agents/repair_agent.py *)

Module RepairAgent.

Definition required_fields : list string :=
  ["parts_needed"; "complexity_level"; "further_inquiry"].

(** The loop that fills [missing_fields]: the fields, in order, that
    are not [in] the response. *)
Fixpoint missing_fields (response : PyVal) (fields : list string)
    : outcome (list string) :=
  match fields with
  | [] => Return []
  | field :: rest =>
      do present <- contains field response;;
      do missing <- missing_fields response rest;;
      Return (if present then missing else field :: missing)
  end.

Definition missing_fields_error (missing : list string) : exn :=
  Exn ValueError
    ("Missing required fields in Claude response: " ++ str_of_names missing).

Definition contractor_message : string :=
  "It seems your issue is rather complex, would you like for me to dispatch a contractor to your address?".
Definition no_questions_message : string :=
  "I need more information to help you, but no specific questions were provided.".
Definition no_instructions_message : string :=
  "I should provide repair instructions, but none were generated.".
Definition unclear_inquiry_message : string :=
  "Unable to determine next steps due to unclear inquiry status.".
Definition fallback_message : string :=
  "Unable to determine the appropriate next steps for this repair situation.".

Definition str_in (s : string) (l : list string) : bool :=
  existsb (String.eqb s) l.

(** The decision logic (rules 1, 2a, 2b and the two fallbacks) on the
    extracted fields. *)
Definition decision (parts_needed : PyVal) (complexity_level : string)
    (further_inquiry further_questions instructions : PyVal) : PyVal :=
  if is_True parts_needed || String.eqb complexity_level "high" then
    PyStr contractor_message
  else if is_False parts_needed && str_in complexity_level ["medium"; "low"] then
    if is_True further_inquiry then
      if negb (truthy further_questions) then PyStr no_questions_message
      else further_questions
    else if is_False further_inquiry then
      if negb (truthy instructions) then PyStr no_instructions_message
      else instructions
    else PyStr unclear_inquiry_message
  else PyStr fallback_message.

Section Handle.
Context {rt : Runtime}.

(** The text logged before the decision.  It holds [parts_needed] and
    [further_inquiry] as [str] writes them, so building it raises when
    either has no [str]. *)
Definition response_analysis_log (parts_needed : PyVal)
    (complexity_level : string) (further_inquiry : PyVal) : outcome string :=
  do parts <- str parts_needed;;
  do inquiry <- str further_inquiry;;
  Return ("Response analysis - Parts needed: " ++ parts
          ++ ", Complexity: " ++ complexity_level
          ++ ", Further inquiry: " ++ inquiry).

(** The body of the [try] of [handle_claude_response]. *)
Definition handle_claude_response_try (response : PyVal) : outcome PyVal :=
  do missing <- missing_fields response required_fields;;
  if nonempty missing then Raise (missing_fields_error missing)
  else
    do parts_needed <- get response "parts_needed" PyNone;;
    do level <- get response "complexity_level" (PyStr "");;
    do complexity_level <- str_lower level;;
    do further_inquiry <- get response "further_inquiry" PyNone;;
    do further_questions <- get response "further_questions" (PyStr "");;
    do instructions <- get response "instructions" (PyStr "");;
    do _ <- response_analysis_log parts_needed complexity_level
              further_inquiry;;
    Return (decision parts_needed complexity_level further_inquiry
              further_questions instructions).

Definition error_message (e : exn) : PyVal :=
  PyStr ("Error processing repair analysis: " ++ exn_str e).

Definition handle_claude_response (response : PyVal) : outcome PyVal :=
  try_except (handle_claude_response_try response)
    is_Exception (fun e => Return (error_message e)).

End Handle.

(** The loop of [validate_claude_response_structure] over the required
    fields and their expected types: [false] at the first field that is
    missing or of another type. *)
Fixpoint check_required (response : PyVal) (fields : list (string * pytype))
    : outcome bool :=
  match fields with
  | [] => Return true
  | (field, expected_type) :: rest =>
      do present <- contains field response;;
      if negb present then Return false
      else
        do v <- getitem response field;;
        if negb (isinstance v expected_type) then Return false
        else check_required response rest
  end.

Definition required_types : list (string * pytype) :=
  [("parts_needed", Tbool); ("complexity_level", Tstr); ("further_inquiry", Tbool)].

Definition valid_complexity : list string := ["low"; "medium"; "high"].

Definition validate_claude_response_structure (response : PyVal)
    : outcome bool :=
  do ok <- check_required response required_types;;
  if negb ok then Return false
  else
    do level <- getitem response "complexity_level";;
    do lowered <- str_lower level;;
    if negb (str_in lowered valid_complexity) then Return false
    else Return true.

Section Generate.
Context {rt : Runtime}.

Definition generate_response (data : PyVal) : outcome PyVal :=
  try_except
    (match data with
     | PyStr s =>
         try_except
           (do parsed_data <- json_loads s;; handle_claude_response parsed_data)
           (fun e => isinstance_exn e [JSONDecodeError; ValueError])
           (fun _ => Return data)
     | PyDict _ => handle_claude_response data
     | _ => do text <- str data;; Return (PyStr text)
     end)
    is_Exception (fun e => Return (error_message e)).

End Generate.
End RepairAgent.

(** ** agents/claude_api.py *)

Module ClaudeApi.

(** What [requests.post] returns: the status, the body text, and what
    [response.json()] gives. *)
Record Response : Type := {
  status_code : Z;
  text : string;
  json : outcome PyVal
}.

(** The surroundings of a call: the prompt file, the environment, the
    completion service. *)
Class World : Type := {
  (** [Path(PROMPTING_YAML_FILE).exists()] *)
  yaml_exists : bool;
  (** opening the file and [yaml.safe_load] of it *)
  yaml_safe_load : outcome PyVal;
  (** [os.getenv] *)
  getenv : string -> option string;
  (** [requests.post(url, json=payload, headers=headers, timeout=timeout)] *)
  requests_post :
    string -> PyVal -> list (string * string) -> Z -> outcome Response
}.

Definition CLAUDE_API_URL : string := "https://api.anthropic.com/v1/messages".
Definition CLAUDE_MODEL : string := "claude-3-5-sonnet-20241022".
Definition PROMPTING_YAML_FILE : string := "prompting.yaml".

Definition newline : string := String "010" "".

Section ClaudeApi.
Context {rt : Runtime} {world : World}.

(** [except Exception as e: logger.error(...); raise] *)
Definition log_and_raise {A} (body : outcome A) : outcome A :=
  try_except body is_Exception (fun e => Raise e).

Definition load_prompts_from_yaml : outcome PyVal :=
  log_and_raise
    (if negb yaml_exists then
       Raise (Exn FileNotFoundError
                ("Prompting YAML file not found: " ++ PROMPTING_YAML_FILE))
     else
       do prompts_data <- yaml_safe_load;;
       do no_prompts <-
         (if negb (truthy prompts_data) then Return true
          else do present <- contains "prompts" prompts_data;;
               Return (negb present));;
       if no_prompts then
         Raise (Exn ValueError "Invalid YAML structure: 'prompts' key not found")
       else
         (* the logged text holds len(prompts_data['prompts']) *)
         do prompts <- getitem prompts_data "prompts";;
         do _ <- len prompts;;
         getitem prompts_data "prompts").

Definition get_prompt_content (prompt_key : string) : outcome PyVal :=
  log_and_raise
    (do prompts <- load_prompts_from_yaml;;
     do present <- contains prompt_key prompts;;
     if negb present then
       Raise (key_error ("Prompt key '" ++ prompt_key
                           ++ "' not found in YAML configuration"))
     else
       do entry <- getitem prompts prompt_key;;
       do content <- get entry "content" (PyStr "");;
       if negb (truthy content) then
         Raise (Exn ValueError
                  ("Empty content for prompt key '" ++ prompt_key ++ "'"))
       else
         (* the logged text holds len(content) *)
         do _ <- len content;;
         Return content).

Definition get_claude_api_key : outcome string :=
  match getenv "CLAUDE_API_KEY" with
  | Some api_key =>
      if negb (truthy (PyStr api_key)) then
        Raise (Exn ValueError
                 "CLAUDE_API_KEY environment variable not set. Please check your .env file.")
      else Return api_key
  | None =>
      Raise (Exn ValueError
               "CLAUDE_API_KEY environment variable not set. Please check your .env file.")
  end.

(** [content[0]] *)
Definition subscript0 (c : PyVal) : outcome PyVal :=
  match c with
  | PyList l => first_item l
  | PyStr s =>
      match s with
      | String ch _ => Return (PyStr (String ch ""))
      | EmptyString => Raise (Exn IndexError "string index out of range")
      end
  | PyDict _ => Raise (Exn KeyError "0")
  | _ => Raise (Exn TypeError
                  ("'" ++ type_name c ++ "' object is not subscriptable"))
  end.

(** The [headers] of the request. *)
Definition request_headers (api_key : string) : list (string * string) :=
  [("Content-Type", "application/json");
   ("x-api-key", api_key);
   ("anthropic-version", "2023-06-01")].

(** The body of the [try] of [send_claude_request]. *)
Definition send_claude_request_try (payload : PyVal) : outcome PyVal :=
  do api_key <- get_claude_api_key;;
  let headers := request_headers api_key in
  do response <- requests_post CLAUDE_API_URL payload headers 120;;
  if (status_code response =? 200)%Z then
    do response_data <- json response;;
    do content <- get response_data "content" (PyList []);;
    if truthy content && isinstance content Tlist then
      do n <- len content;;
      if (0 <? n)%Z then
        do first <- subscript0 content;;
        get first "text" (PyStr "")
      else Return PyNone
    else Return PyNone
  else Return PyNone.

Definition send_claude_request (payload : PyVal) : outcome PyVal :=
  try_except2 (send_claude_request_try payload)
    (fun e => isinstance_exn e [RequestException]) (fun _ => Return PyNone)
    is_Exception (fun _ => Return PyNone).

Definition combined_prompt (base_prompt : PyVal)
    (customer_info customer_prompt : string) : outcome string :=
  do base_text <- str base_prompt;;
  Return (base_text ++ newline ++ newline
          ++ "            Customer Information:" ++ newline
          ++ "            " ++ customer_info ++ newline ++ newline
          ++ "            Customer Request:" ++ newline
          ++ "            " ++ customer_prompt).

Definition analyze_customer_request
    (customer_info customer_prompt yaml_prompt_key : string) : outcome PyVal :=
  try_except
    (do base_prompt <- get_prompt_content yaml_prompt_key;;
     do prompt_text <- combined_prompt base_prompt customer_info
                         customer_prompt;;
     let payload :=
       PyDict
         [("model", PyStr CLAUDE_MODEL);
          ("max_tokens", PyInt 2048);
          ("messages",
           PyList
             [PyDict
                [("role", PyStr "user");
                 ("content", PyStr prompt_text)]])] in
     do response <- send_claude_request payload;;
     if truthy response then
       (* the logged text holds len(response) *)
       do _ <- len response;;
       Return response
     else Return PyNone)
    is_Exception (fun _ => Return PyNone).

(** [process_prompt(prompt)], with the default [customer_info] and
    [yaml_prompt_key] made explicit by the caller. *)
Definition process_prompt (prompt customer_info yaml_prompt_key : string)
    : outcome PyVal :=
  analyze_customer_request customer_info prompt yaml_prompt_key.

(** [list(prompts.keys())] *)
Definition keys (v : PyVal) : outcome PyVal :=
  match v with
  | PyDict d => Return (PyList (map (fun entry => PyStr (fst entry)) d))
  | _ => Raise (no_attribute v "keys")
  end.

Definition get_available_prompts : outcome PyVal :=
  try_except
    (do prompts <- load_prompts_from_yaml;; keys prompts)
    is_Exception (fun _ => Return (PyList [])).

End ClaudeApi.
End ClaudeApi.

(** ** agents/main.py *)

Module Main.
Import RepairAgent ClaudeApi.

Section Main.
Context {rt : Runtime} {world : World}.

Definition ping : PyVal := PyDict [("status", PyStr "pong")].

Definition error_result (message : string) : PyVal :=
  PyDict [("status", PyStr "error"); ("message", PyStr message)].

Definition success_result (response : PyVal) : PyVal :=
  PyDict [("status", PyStr "success"); ("response", response)].

(** The body of the [try] of [handle_prompt], on [input.prompt]. *)
Definition handle_prompt_try (prompt : string) : outcome PyVal :=
  do claude_output <- process_prompt prompt "" "repair_analysis";;
  if is_None claude_output then
    Return (error_result "Failed to get response from Claude API")
  else
    do response <- generate_response claude_output;;
    Return (success_result response).

Definition handle_prompt (prompt : string) : outcome PyVal :=
  try_except (handle_prompt_try prompt)
    is_Exception (fun e => Return (error_result (exn_str e))).

End Main.
End Main.

(** ** A runtime to run the code with

    [Json.loads] with a [repr] that writes [None], booleans, integers,
    floats (the shortest decimal that reads back as the same float),
    ASCII text, lists and dicts by CPython's rules, and raises on an
    integer of more than 4300 digits and on nesting too deep.  Bytes above 127
    are copied as they are, which is what CPython does for printable
    characters only. *)

Module Reference.

(** *** [repr] of a [str] *)

Definition hex_char (n : N) : ascii :=
  if (n <? 10)%N then ascii_of_N (48 + n) else ascii_of_N (87 + n).

Definition escape_char (quote c : ascii) : string :=
  let n := N_of_ascii c in
  if Ascii.eqb c quote || Ascii.eqb c Json.backslash then
    String Json.backslash (String c "")
  else if Ascii.eqb c "010" then String Json.backslash "n"
  else if Ascii.eqb c "013" then String Json.backslash "r"
  else if Ascii.eqb c "009" then String Json.backslash "t"
  else if ((n <? 32) || (n =? 127))%N then
    String Json.backslash
      (String "x" (String (hex_char (n / 16)) (String (hex_char (n mod 16)) "")))
  else String c "".

Fixpoint escape (quote : ascii) (s : string) : string :=
  match s with
  | EmptyString => EmptyString
  | String c r => escape_char quote c ++ escape quote r
  end.

Fixpoint has_char (c : ascii) (s : string) : bool :=
  match s with
  | EmptyString => false
  | String d r => Ascii.eqb c d || has_char c r
  end.

(** Single quotes, unless the text has a single quote and no double
    quote. *)
Definition repr_str (s : string) : string :=
  let quote :=
    if has_char "'" s && negb (has_char Json.dquote s) then Json.dquote
    else "'"%char in
  String quote (escape quote s) ++ String quote "".

(** *** [repr] of a [float] *)

Open Scope Z_scope.

(** [m * 2^e] as a fraction. *)
Definition fraction (m : positive) (e : Z) : Z * Z :=
  if 0 <=? e then (Zpos m * 2 ^ e, 1) else (Zpos m, 2 ^ (- e)).

(** [10^k <= n / d] *)
Definition pow10_le (k n d : Z) : bool :=
  if 0 <=? k then d * 10 ^ k <=? n else d <=? n * 10 ^ (- k).

(** The largest [k] with [10^k <= n / d], found next to the estimate
    given by the binary logarithms. *)
Definition log10_floor (n d : Z) : Z :=
  let est := ((Z.log2 n - Z.log2 d) * 30103) / 100000 in
  if pow10_le (est + 2) n d then est + 2
  else if pow10_le (est + 1) n d then est + 1
  else if pow10_le est n d then est
  else if pow10_le (est - 1) n d then est - 1
  else est - 2.

(** [c * 10^s] reads back as [n / d]. *)
Definition reads_back (c s n d : Z) : bool :=
  match Json.float_of_decimal false c s with
  | S754_finite _ m' e' =>
      let '(n', d') := fraction m' e' in n' * d =? n * d'
  | _ => false
  end.

(** The decimal with [p] significant digits that reads back as [n / d]
    and is nearest to it, if there is one: its digits and exponent. *)
Definition digits_at (p : Z) (n d : Z) : option (Z * Z) :=
  let k := log10_floor n d in
  let s := k - p + 1 in
  let '(ns, ds) := if 0 <=? s then (n, d * 10 ^ s) else (n * 10 ^ (- s), d) in
  let lo := ns / ds in
  let rem := ns mod ds in
  let lo_ok := reads_back lo s n d in
  let hi_ok := reads_back (lo + 1) s n d in
  let lo_nearer := (2 * rem <? ds) || ((2 * rem =? ds) && Z.even lo) in
  if lo_ok && (lo_nearer || negb hi_ok) then Some (lo, s)
  else if hi_ok then Some (lo + 1, s)
  else None.

Fixpoint shortest (fuel : nat) (p : Z) (n d : Z) : Z * Z :=
  match fuel with
  | O => (0, 0)
  | S fuel =>
      match digits_at p n d with
      | Some r => r
      | None => shortest fuel (p + 1) n d
      end
  end.

Fixpoint strip_zeros (fuel : nat) (c s : Z) : Z * Z :=
  match fuel with
  | O => (c, s)
  | S fuel =>
      if (c mod 10 =? 0) && negb (c =? 0) then strip_zeros fuel (c / 10) (s + 1)
      else (c, s)
  end.

Definition zeros (n : Z) : string :=
  String.concat "" (repeat "0"%string (Z.to_nat n)).

(** The digits [ds] with the decimal point after the first [decpt] of
    them: positional between 1e-4 and 1e16, with an exponent outside. *)
Definition place_point (ds : string) (decpt : Z) : string :=
  let len := Z.of_nat (String.length ds) in
  if (decpt <=? -4) || (16 <? decpt) then
    let x := decpt - 1 in
    let mant :=
      match ds with
      | String c EmptyString => ds
      | String c r => String c (String "." r)
      | EmptyString => ds
      end in
    let ax := Z.abs x in
    let sign := if x <? 0 then "-"%string else "+"%string in
    let pad := if ax <? 10 then "0"%string else ""%string in
    (mant ++ "e" ++ sign ++ pad ++ pretty ax)%string
  else if decpt <=? 0 then ("0." ++ zeros (- decpt) ++ ds)%string
  else if len <=? decpt then (ds ++ zeros (decpt - len) ++ ".0")%string
  else (String.substring 0 (Z.to_nat decpt) ds ++ "."
          ++ String.substring (Z.to_nat decpt) (Z.to_nat (len - decpt)) ds)%string.

Definition repr_float (f : spec_float) : string :=
  match f with
  | S754_nan => "nan"
  | S754_infinity neg => if neg then "-inf" else "inf"
  | S754_zero neg => if neg then "-0.0" else "0.0"
  | S754_finite neg m e =>
      let '(n, d) := fraction m e in
      let '(c0, s0) := shortest 17 1 n d in
      let '(c, s) := strip_zeros 400 c0 s0 in
      let ds := pretty c in
      ((if neg then "-" else "")
         ++ place_point ds (Z.of_nat (String.length ds) + s))%string
  end.

Close Scope Z_scope.

(** *** [repr] of a value *)

Definition repr_too_deep {A} : outcome A :=
  Raise (Exn RecursionError
           "maximum recursion depth exceeded while getting the repr of an object").

(** [repr] with [depth] more lists or dicts to enter. *)
Fixpoint repr_within (depth : nat) (v : PyVal) {struct v} : outcome string :=
  match v with
  | PyNone => Return "None"
  | PyBool true => Return "True"
  | PyBool false => Return "False"
  | PyInt n => int_to_str n
  | PyFloat f => Return (repr_float f)
  | PyStr s => Return (repr_str s)
  | PyList l =>
      match depth with
      | O => repr_too_deep
      | S depth =>
          do parts <-
            (fix each (l : list PyVal) : outcome (list string) :=
               match l with
               | [] => Return []
               | x :: r =>
                   do first <- repr_within depth x;;
                   do rest <- each r;;
                   Return (first :: rest)
               end) l;;
          Return ("[" ++ String.concat ", " parts ++ "]")
      end
  | PyDict d =>
      match depth with
      | O => repr_too_deep
      | S depth =>
          do parts <-
            (fix each (d : list (string * PyVal)) : outcome (list string) :=
               match d with
               | [] => Return []
               | (k, w) :: r =>
                   do first <- repr_within depth w;;
                   do rest <- each r;;
                   Return ((repr_str k ++ ": " ++ first) :: rest)
               end) d;;
          Return ("{" ++ String.concat ", " parts ++ "}")
      end
  end.

Definition repr (v : PyVal) : outcome string :=
  repr_within Json.nesting_limit v.

(** The reference runtime.  [Json.loads] only decodes a text that
    begins as a JSON value does: [scan_once] gives up on any other
    first character. *)
#[export, refine] Instance runtime : Runtime := {|
  json_loads := Json.loads;
  py_repr := repr;
  str_repr := repr_str;
  json_loads_start := _
|}.
Proof.
  intros s v. unfold Json.loads, Json.value_start.
  destruct (String.prefix Json.utf8_bom s); [discriminate|].
  replace (2 * String.length s + 2) with (S (2 * String.length s + 1))
    by lia.
  destruct (Json.skip_ws s) as [|c r]; [discriminate|].
  destruct c as [[] [] [] [] [] [] [] []]; try reflexivity;
    intros H; lazy in H; discriminate H.
Defined.

End Reference.

(** ** Scenarios: a prompt file, a credential, and a reply of the
    completion service *)

Module Scenario.
Import ClaudeApi.

Definition prompts_file : PyVal :=
  PyDict
    [("prompts",
      PyDict
        [("repair_analysis",
          PyDict [("content", PyStr "Classify the repair request.")])])].

(** The service answers every request with [reply]. *)
Definition world (reply : outcome Response) : World := {|
  yaml_exists := true;
  yaml_safe_load := Return prompts_file;
  getenv := fun name =>
    if String.eqb name "CLAUDE_API_KEY" then Some "test-key" else None;
  requests_post := fun _ _ _ _ => reply
|}.

(** A reply with status 200 and the given body. *)
Definition ok (body : string) : Response := {|
  status_code := 200;
  text := body;
  json := Json.loads body
|}.

(** The body of a reply whose first content item holds [reply_text]
    (a text without quotes or backslashes). *)
Definition message_body (reply_text : string) : string :=
  "{" ++ Json.q "content" ++ ": [{" ++ Json.q "type" ++ ": " ++ Json.q "text"
  ++ ", " ++ Json.q "text" ++ ": " ++ Json.q reply_text ++ "}]}".

Definition timeout : outcome Response :=
  Raise (Exn RequestException "Read timed out. (read timeout=120)").

Definition some_payload : PyVal := PyDict [("model", PyStr CLAUDE_MODEL)].

(** A reply whose first content item is a dict without a text. *)
Definition no_text_body : string :=
  "{" ++ Json.q "content" ++ ": [{" ++ Json.q "type" ++ ": "
  ++ Json.q "text" ++ "}]}".

(** A reply whose text is itself the JSON text of a record. *)
Definition escaped (s : string) : string :=
  String Json.backslash (String Json.dquote s)
  ++ String Json.backslash (String Json.dquote "").

Definition record_reply_body : string :=
  "{" ++ Json.q "content" ++ ": [{" ++ Json.q "text" ++ ": "
  ++ Json.q ("{" ++ escaped "parts_needed" ++ ": true, "
             ++ escaped "complexity_level" ++ ": " ++ escaped "low" ++ ", "
             ++ escaped "further_inquiry" ++ ": false}")
  ++ "}]}".

(** *** Records *)

Definition model_number_record : list (string * PyVal) :=
  [("parts_needed", PyBool false);
   ("complexity_level", PyStr "low");
   ("further_inquiry", PyBool true);
   ("further_questions", PyStr "What is the model number?")].

Definition upper_case_high_record : list (string * PyVal) :=
  [("parts_needed", PyBool false);
   ("complexity_level", PyStr "HIGH");
   ("further_inquiry", PyBool false);
   ("instructions", PyStr "Tighten the valve.")].


(** [parts_needed] is the text "true", not a boolean. *)
Definition mistyped_record : list (string * PyVal) :=
  [("parts_needed", PyStr "true");
   ("complexity_level", PyStr "low");
   ("further_inquiry", PyBool true)].

(** The level is none of low, medium, high. *)
Definition unknown_level_record : list (string * PyVal) :=
  [("parts_needed", PyBool false);
   ("complexity_level", PyStr "extreme");
   ("further_inquiry", PyBool false);
   ("instructions", PyStr "Tighten the valve.")].

(** [further_questions] is a number. *)
Definition numeric_questions_record : list (string * PyVal) :=
  [("parts_needed", PyBool false);
   ("complexity_level", PyStr "low");
   ("further_inquiry", PyBool true);
   ("further_questions", PyInt 5)].

(** The JSON text of [model_number_record]. *)
Definition model_number_text : string :=
  "{" ++ Json.q "parts_needed" ++ ": false, "
  ++ Json.q "complexity_level" ++ ": " ++ Json.q "low" ++ ", "
  ++ Json.q "further_inquiry" ++ ": true, "
  ++ Json.q "further_questions" ++ ": "
  ++ Json.q "What is the model number?" ++ "}".

(** The prompts that [prompts_file] holds. *)
Definition prompts_of_file : PyVal :=
  PyDict
    [("repair_analysis",
      PyDict [("content", PyStr "Classify the repair request.")])].

(** [further_inquiry] is true and there are no questions. *)
Definition no_questions_record : list (string * PyVal) :=
  [("parts_needed", PyBool false);
   ("complexity_level", PyStr "medium");
   ("further_inquiry", PyBool true)].

(** [further_inquiry] is false and the instructions are empty. *)
Definition empty_instructions_record : list (string * PyVal) :=
  [("parts_needed", PyBool false);
   ("complexity_level", PyStr "low");
   ("further_inquiry", PyBool false);
   ("instructions", PyStr "")].

(** [parts_needed] is the number 1. *)
Definition numeric_parts_record : list (string * PyVal) :=
  [("parts_needed", PyInt 1);
   ("complexity_level", PyStr "low");
   ("further_inquiry", PyBool true)].

(** [parts_needed] is an integer of 4301 digits. *)
Definition huge_parts_record : list (string * PyVal) :=
  [("parts_needed", PyInt int_max_str);
   ("complexity_level", PyStr "low");
   ("further_inquiry", PyBool true)].

(** Two thousand opening brackets. *)
Definition deep_text : string := String.concat "" (repeat "[" 2000).

(** Worlds in which something is not set up. *)
Definition world_without_file (reply : outcome Response) : World := {|
  yaml_exists := false;
  yaml_safe_load := Raise (Exn FileNotFoundError "prompting.yaml");
  getenv := fun name =>
    if String.eqb name "CLAUDE_API_KEY" then Some "test-key" else None;
  requests_post := fun _ _ _ _ => reply
|}.

Definition world_without_key (reply : outcome Response) : World := {|
  yaml_exists := true;
  yaml_safe_load := Return prompts_file;
  getenv := fun _ => None;
  requests_post := fun _ _ _ _ => reply
|}.

(** A world whose prompt file holds the document [doc]. *)
Definition world_with_file (doc : PyVal) : World := {|
  yaml_exists := true;
  yaml_safe_load := Return doc;
  getenv := fun _ => None;
  requests_post := fun _ _ _ _ => timeout
|}.

Definition repair_instructions_record : list (string * PyVal) :=
  [("parts_needed", PyBool false);
   ("complexity_level", PyStr "Medium");
   ("further_inquiry", PyBool false);
   ("instructions", PyStr "Tighten the valve.")].

(** [further_inquiry] is the text "yes". *)
Definition unclear_inquiry_record : list (string * PyVal) :=
  [("parts_needed", PyBool false);
   ("complexity_level", PyStr "low");
   ("further_inquiry", PyStr "yes")].

(** The level is a number, and parts are needed. *)
Definition numeric_level_record : list (string * PyVal) :=
  [("parts_needed", PyBool true);
   ("complexity_level", PyInt 3);
   ("further_inquiry", PyBool false)].

(** [repair_instructions_record] with another spelling of the level,
    the keys in another order and a key the interpreter does not read. *)
Definition reordered_record : list (string * PyVal) :=
  [("description_of_issue", PyStr "A dripping tap.");
   ("instructions", PyStr "Tighten the valve.");
   ("further_inquiry", PyBool false);
   ("complexity_level", PyStr "MEDIUM");
   ("parts_needed", PyBool false)].

End Scenario.

(** ** Notions used to state the properties *)

Module Notions.
Import RepairAgent ClaudeApi.

(** The required fields that a dict lacks, in their order. *)
Definition absent_fields (d : list (string * PyVal)) : list string :=
  List.filter (fun f => negb (has_key d f)) required_fields.

(** The text of every diagnostic. *)
Definition diagnostic_prefix : string := "Error processing repair analysis: ".

(** An optional text field: absent, or a [str]. *)
Definition text_or_absent (field : option PyVal) : Prop :=
  match field with
  | Some (PyStr _) | None => True
  | Some _ => False
  end.

(** The optional text fields of a record are texts. *)
Definition texts_ok (v : PyVal) : Prop :=
  match v with
  | PyDict d =>
      text_or_absent (item d "further_questions")
      /\ text_or_absent (item d "instructions")
  | _ => True
  end.

Section Inputs.
Context {rt : Runtime}.

(** The inputs the interpreter is meant for: no answer from upstream ([None]), a record, or
    a raw text that is not empty. *)
Definition interpreter_input (data : PyVal) : Prop :=
  match data with
  | PyNone => True
  | PyDict _ => texts_ok data
  | PyStr s => s <> "" /\ forall v, json_loads s = Return v -> texts_ok v
  | _ => False
  end.

End Inputs.

(** The first element of the content list of a reply, when the reply
    decodes to a dict whose [content] is a list with an element. *)
Definition first_content (response : Response) : option PyVal :=
  match json response with
  | Return (PyDict d) =>
      match item d "content" with
      | Some (PyList (first :: _)) => Some first
      | _ => None
      end
  | _ => None
  end.

(** A value that has a [len]. *)
Definition sized (v : PyVal) : bool :=
  match v with
  | PyStr _ | PyList _ | PyDict _ => true
  | _ => false
  end.


(** An optional field of a record when it counts as true, a fixed
    message otherwise. *)
Definition field_or (field : option PyVal) (message : string) : PyVal :=
  match field with
  | Some v => if truthy v then v else PyStr message
  | None => PyStr message
  end.

(** A level with its letters lowered; any other value as it is. *)
Definition lowered_level (field : option PyVal) : option PyVal :=
  match field with
  | Some (PyStr level) => Some (PyStr (lower level))
  | _ => field
  end.

(** The fields of a record besides the level that the interpreter
    reads. *)
Definition read_fields : list string :=
  ["parts_needed"; "further_inquiry"; "further_questions"; "instructions"].

(** The reply gives the client no text that counts as true. *)
Definition lacks_text (response : Response) : bool :=
  match first_content response with
  | Some (PyDict first) =>
      negb (truthy (default (PyStr "") (item first "text")))
  | _ => true
  end.

Section Written.
Context {rt : Runtime}.

(** [str] of the value returns: the value can be written into a text. *)
Definition has_str (v : PyVal) : Prop := exists text, str v = Return text.

End Written.

(** The line feed. *)
Definition lf : string := String "010" "".

End Notions.


(** * Properties of the response interpreter *)

Module Interpreter.
Import RepairAgent Notions.

Section Claims.
Context {rt : Runtime}.

(** *** What the pieces compute on a dict *)

Lemma missing_fields_dict d fields :
  missing_fields (PyDict d) fields
  = Return (List.filter (fun f => negb (has_key d f)) fields).
Proof.
  induction fields as [|f fields IH]; [reflexivity|].
  cbn [missing_fields contains bind]. rewrite IH. cbn [bind List.filter].
  destruct (has_key d f); reflexivity.
Qed.

Lemma handle_claude_response_caught response :
  handle_claude_response response
  = Return match handle_claude_response_try response with
           | Return message => message
           | Raise e => error_message e
           end.
Proof.
  unfold handle_claude_response, try_except.
  destruct (handle_claude_response_try response); reflexivity.
Qed.

Lemma error_message_prefix e :
  error_message e = PyStr (diagnostic_prefix ++ exn_str e).
Proof. reflexivity. Qed.

Lemma absent_fields_nil d :
  absent_fields d = []
  <-> has_key d "parts_needed" = true
      /\ has_key d "complexity_level" = true
      /\ has_key d "further_inquiry" = true.
Proof.
  unfold absent_fields, required_fields. cbn [List.filter].
  destruct (has_key d "parts_needed"), (has_key d "complexity_level"),
    (has_key d "further_inquiry"); cbn; split; intros H;
    try discriminate; try reflexivity; try tauto;
    destruct H as (? & ? & ?); discriminate.
Qed.

(** With the three fields present, the body of [handle_claude_response]
    lowers the level, builds the logged text and applies the decision
    logic to the fields. *)
Lemma handle_try_present d :
  absent_fields d = [] ->
  handle_claude_response_try (PyDict d)
  = (do complexity_level <-
       str_lower (default (PyStr "") (item d "complexity_level"));;
     do _ <- response_analysis_log (default PyNone (item d "parts_needed"))
               complexity_level
               (default PyNone (item d "further_inquiry"));;
     Return (decision (default PyNone (item d "parts_needed"))
               complexity_level
               (default PyNone (item d "further_inquiry"))
               (default (PyStr "") (item d "further_questions"))
               (default (PyStr "") (item d "instructions")))).
Proof.
  intros H. unfold handle_claude_response_try.
  rewrite missing_fields_dict. fold (absent_fields d). rewrite H.
  reflexivity.
Qed.

Lemma handle_try_absent d :
  absent_fields d <> [] ->
  handle_claude_response_try (PyDict d)
  = Raise (missing_fields_error (absent_fields d)).
Proof.
  intros H. unfold handle_claude_response_try.
  rewrite missing_fields_dict. fold (absent_fields d).
  destruct (absent_fields d); [contradiction|reflexivity].
Qed.

(** What the validator accepts: the three required fields are there,
    two booleans and a string that is a known level once lowered. *)
(** The logged text can be built when both values can be written. *)
Lemma log_built parts level inquiry :
  has_str parts -> has_str inquiry ->
  exists text, response_analysis_log parts level inquiry = Return text.
Proof.
  intros (p & Hp) (i & Hi). unfold response_analysis_log.
  rewrite Hp, Hi. eexists. reflexivity.
Qed.

Lemma log_of_booleans parts level inquiry :
  exists text,
    response_analysis_log (PyBool parts) level (PyBool inquiry) = Return text.
Proof.
  apply log_built; [destruct parts|destruct inquiry]; eexists; reflexivity.
Qed.

Lemma validate_true d :
  validate_claude_response_structure (PyDict d) = Return true ->
  exists p level i,
    item d "parts_needed" = Some (PyBool p)
    /\ item d "complexity_level" = Some (PyStr level)
    /\ item d "further_inquiry" = Some (PyBool i)
    /\ str_in (lower level) valid_complexity = true.
Proof.
  unfold validate_claude_response_structure, required_types.
  cbn [check_required contains getitem bind]. unfold has_key.
  destruct (item d "parts_needed") as [[| p | | | | |]|];
    cbn -[str_in]; try discriminate.
  destruct (item d "complexity_level") as [[| | | | level | |]|];
    cbn -[str_in]; try discriminate.
  destruct (item d "further_inquiry") as [[| i | | | | |]|];
    cbn -[str_in]; try discriminate.
  destruct (str_in (lower level) valid_complexity) eqn:E; [|discriminate].
  intros _. exists p, level, i. auto.
Qed.

Lemma validate_present d :
  validate_claude_response_structure (PyDict d) = Return true ->
  absent_fields d = [].
Proof.
  intros (p & level & i & Hp & Hl & Hi & _)%validate_true.
  apply absent_fields_nil. unfold has_key. rewrite Hp, Hl, Hi. auto.
Qed.

(** With the three fields present, a text for level, and two values
    that can be written into the logged text, the answer is what the
    decision logic makes of the fields. *)
Lemma handle_present d parts level inquiry :
  item d "parts_needed" = Some parts ->
  item d "complexity_level" = Some (PyStr level) ->
  item d "further_inquiry" = Some inquiry ->
  has_str parts ->
  has_str inquiry ->
  handle_claude_response (PyDict d)
  = Return (decision parts (lower level) inquiry
              (default (PyStr "") (item d "further_questions"))
              (default (PyStr "") (item d "instructions"))).
Proof.
  intros Hp Hl Hi Hsp Hsi.
  rewrite handle_claude_response_caught, handle_try_present.
  - rewrite Hp, Hl, Hi. cbn [default from_option id str_lower bind].
    destruct (log_built parts (lower level) inquiry Hsp Hsi) as (text & ->).
    reflexivity.
  - apply absent_fields_nil. unfold has_key. rewrite Hp, Hl, Hi. auto.
Qed.

Lemma has_str_bool b : has_str (PyBool b).
Proof. destruct b; eexists; reflexivity. Qed.

Lemma generate_response_dict d :
  generate_response (PyDict d) = handle_claude_response (PyDict d).
Proof.
  unfold generate_response. rewrite handle_claude_response_caught.
  reflexivity.
Qed.

(** C3: a well-formed record with [parts_needed] true, or with a
    [complexity_level] that is "high" once lowered (so "HIGH" as well
    as "high"), gets the contractor-dispatch message, whatever
    [further_inquiry], [further_questions] and [instructions] are;
    through [handle_claude_response] and through [generate_response]. *)
Theorem contractor_dispatch d :
  validate_claude_response_structure (PyDict d) = Return true ->
  (item d "parts_needed" = Some (PyBool true)
   \/ exists level, item d "complexity_level" = Some (PyStr level)
                    /\ lower level = "high") ->
  handle_claude_response (PyDict d)
  = Return (PyStr "It seems your issue is rather complex, would you like for me to dispatch a contractor to your address?")
  /\ generate_response (PyDict d)
     = Return (PyStr "It seems your issue is rather complex, would you like for me to dispatch a contractor to your address?").
Proof.
  intros Hv Hc. rewrite generate_response_dict.
  destruct (validate_true d Hv) as (p & level & i & Hp & Hl & Hi & _).
  rewrite (handle_present d _ _ _ Hp Hl Hi (has_str_bool p) (has_str_bool i)).
  assert (decision (PyBool p) (lower level) (PyBool i)
            (default (PyStr "") (item d "further_questions"))
            (default (PyStr "") (item d "instructions"))
          = PyStr contractor_message) as ->; [|split; reflexivity].
  destruct Hc as [Hc | (level' & Hc & Hhigh)].
  - rewrite Hp in Hc. injection Hc as ->. reflexivity.
  - rewrite Hl in Hc. injection Hc as Heq. subst level'. rewrite Hhigh.
    unfold decision. rewrite orb_true_r. reflexivity.
Qed.

(** C7: a well-formed record with [parts_needed] false, a level that
    is "medium" or "low" once lowered, and [further_inquiry] true gets
    exactly its [further_questions] when that is a non-empty string,
    and the fixed no-questions message when it is the empty string or
    absent. *)
Theorem follow_up_questions d level :
  validate_claude_response_structure (PyDict d) = Return true ->
  item d "parts_needed" = Some (PyBool false) ->
  item d "complexity_level" = Some (PyStr level) ->
  lower level = "medium" \/ lower level = "low" ->
  item d "further_inquiry" = Some (PyBool true) ->
  (forall questions,
     item d "further_questions" = Some (PyStr questions) ->
     questions <> "" ->
     handle_claude_response (PyDict d) = Return (PyStr questions)
     /\ generate_response (PyDict d) = Return (PyStr questions))
  /\ (item d "further_questions" = Some (PyStr "")
      \/ item d "further_questions" = None ->
      handle_claude_response (PyDict d)
      = Return (PyStr "I need more information to help you, but no specific questions were provided.")
      /\ generate_response (PyDict d)
         = Return (PyStr "I need more information to help you, but no specific questions were provided.")).
Proof.
  intros Hv Hp Hl Hlevel Hi.
  assert (handle_claude_response (PyDict d)
          = Return (if negb (truthy (default (PyStr "")
                                       (item d "further_questions")))
                    then PyStr no_questions_message
                    else default (PyStr "") (item d "further_questions")))
    as H.
  { rewrite (handle_present d _ _ _ Hp Hl Hi
               (has_str_bool false) (has_str_bool true)).
    unfold decision. destruct Hlevel as [-> | ->]; reflexivity. }
  rewrite generate_response_dict, H. split.
  - intros questions -> Hne.
    destruct questions; [contradiction|]. split; reflexivity.
  - intros [-> | ->]; split; reflexivity.
Qed.

(** C9, as the code has it: with the three fields present, a
    [complexity_level] string that is not "high" once lowered, a
    [parts_needed] that is neither [True] nor [False], and both
    [parts_needed] and [further_inquiry] values that can be written
    into the logged text, the decision logic ends in its last branch
    and the fallback message is returned. *)
Theorem fallback_branch_reached d parts level inquiry :
  item d "further_inquiry" = Some inquiry ->
  item d "parts_needed" = Some parts ->
  is_True parts = false ->
  is_False parts = false ->
  item d "complexity_level" = Some (PyStr level) ->
  lower level <> "high" ->
  has_str parts ->
  has_str inquiry ->
  handle_claude_response (PyDict d)
  = Return (PyStr "Unable to determine the appropriate next steps for this repair situation.")
  /\ generate_response (PyDict d)
     = Return (PyStr "Unable to determine the appropriate next steps for this repair situation.").
Proof.
  intros Hi Hp Ht Hf Hl Hlevel Hsp Hsi. rewrite generate_response_dict.
  rewrite (handle_present d _ _ _ Hp Hl Hi Hsp Hsi).
  unfold decision. rewrite Ht, Hf.
  apply String.eqb_neq in Hlevel. rewrite Hlevel. split; reflexivity.
Qed.


(** C4, as the code has it: a text on which [json.loads] raises
    [JSONDecodeError] (or any other [ValueError]) is returned as it
    is.  An exception of another class, such as the [RecursionError]
    of a deeply nested text, is not caught by the inner [except] and
    ends in a diagnostic. *)
Theorem unparsable_text_verbatim s e :
  json_loads s = Raise e ->
  isinstance_exn e [JSONDecodeError; ValueError] = true ->
  generate_response (PyStr s) = Return (PyStr s).
Proof.
  intros Hload Hcls. unfold generate_response.
  rewrite Hload. cbn [bind try_except]. rewrite Hcls. reflexivity.
Qed.

(** A value that is not a dict makes the body of
    [handle_claude_response] raise: the membership test fails on a
    value that is not a container, and [get] fails on a str or a list. *)
Lemma handle_try_not_dict v :
  isinstance v Tdict = false ->
  exists e, handle_claude_response_try v = Raise e.
Proof.
  intros Hv. unfold handle_claude_response_try, required_fields.
  destruct v as [| b | n | f | t | l | d]; try discriminate Hv;
    cbn [missing_fields contains bind];
    try (eexists; reflexivity).
  - destruct (substring_of "parts_needed" t),
      (substring_of "complexity_level" t),
      (substring_of "further_inquiry" t); eexists; reflexivity.
  - destruct (existsb (fun x => eq_str x "parts_needed") l),
      (existsb (fun x => eq_str x "complexity_level") l),
      (existsb (fun x => eq_str x "further_inquiry") l);
      eexists; reflexivity.
Qed.

Lemma generate_response_parsed s v :
  json_loads s = Return v ->
  generate_response (PyStr s) = handle_claude_response v.
Proof.
  intros Hload. unfold generate_response. rewrite Hload.
  cbn [bind]. rewrite handle_claude_response_caught. reflexivity.
Qed.

(** C10: a text that [json.loads] decodes to something other than a
    dict is not returned as it is: the answer is a diagnostic that
    begins with "Error processing repair analysis", made from the
    exception raised in [handle_claude_response]. *)
Theorem non_object_json_diagnostic s v :
  json_loads s = Return v ->
  isinstance v Tdict = false ->
  (exists e,
     handle_claude_response_try v = Raise e
     /\ generate_response (PyStr s)
        = Return (PyStr ("Error processing repair analysis: " ++ exn_str e)))
  /\ generate_response (PyStr s) <> Return (PyStr s).
Proof.
  intros Hload Hv.
  destruct (handle_try_not_dict v Hv) as (e & He).
  assert (generate_response (PyStr s) = Return (error_message e)) as H.
  { rewrite (generate_response_parsed s v Hload).
    rewrite handle_claude_response_caught, He. reflexivity. }
  split; [exists e; split; [exact He|exact H]|].
  rewrite H. intros Heq. injection Heq as Heq.
  apply json_loads_start in Hload. rewrite <- Heq in Hload.
  discriminate Hload.
Qed.

Lemma generate_response_returns data :
  exists message, generate_response data = Return message.
Proof.
  unfold generate_response.
  match goal with
  | |- exists message, try_except ?body _ _ = _ => destruct body as [m|e]
  end; eexists; reflexivity.
Qed.


(** *** When the answer is a non-empty text *)

Lemma decision_text parts level inquiry questions instructions :
  exists message,
    decision parts level inquiry (PyStr questions) (PyStr instructions)
    = PyStr message
    /\ message <> "".
Proof.
  unfold decision.
  destruct (is_True parts || String.eqb level "high");
    [eexists; split; [reflexivity|discriminate]|].
  destruct (is_False parts && str_in level ["medium"; "low"]);
    [|eexists; split; [reflexivity|discriminate]].
  destruct (is_True inquiry).
  - destruct questions; cbn; eexists; split; try reflexivity; discriminate.
  - destruct (is_False inquiry);
      [|eexists; split; [reflexivity|discriminate]].
    destruct instructions; cbn; eexists; split; try reflexivity; discriminate.
Qed.

Lemma text_or_absent_default field :
  text_or_absent field -> exists t, default (PyStr "") field = PyStr t.
Proof.
  destruct field as [[| | | | t | |]|]; cbn; intros H;
    try contradiction; eexists; reflexivity.
Qed.

Lemma handle_returns_text v :
  texts_ok v ->
  exists message,
    handle_claude_response v = Return (PyStr message) /\ message <> "".
Proof.
  intros Hok. rewrite handle_claude_response_caught.
  destruct (handle_claude_response_try v) as [m|e] eqn:E;
    [|eexists; split; [reflexivity|discriminate]].
  destruct (isinstance v Tdict) eqn:Hd.
  - destruct v as [| | | | | |d]; try discriminate Hd.
    destruct (decide (absent_fields d = [])) as [Habs|Habs].
    + rewrite (handle_try_present d Habs) in E.
      destruct (str_lower _) as [level|e]; [|discriminate E].
      cbn [bind] in E.
      destruct (response_analysis_log _ _ _) as [text|e]; [|discriminate E].
      cbn [bind] in E. injection E as <-.
      destruct Hok as [Hq Hi].
      destruct (text_or_absent_default _ Hq) as (q & ->).
      destruct (text_or_absent_default _ Hi) as (i & ->).
      destruct (decision_text (default PyNone (item d "parts_needed")) level
                  (default PyNone (item d "further_inquiry")) q i)
        as (message & -> & Hne).
      exists message. split; [reflexivity|exact Hne].
    + rewrite (handle_try_absent d Habs) in E. discriminate E.
  - destruct (handle_try_not_dict v Hd) as (e & He).
    rewrite He in E. discriminate E.
Qed.

(** C2, as the code has it: for no answer from upstream, for a record
    and for a raw text that is not empty (the optional text fields of
    the record, or of what the text decodes to, being texts), the
    answer of [generate_response] is one text, and not the empty one. *)
Theorem interpreter_answers_text data :
  interpreter_input data ->
  exists message,
    generate_response data = Return (PyStr message) /\ message <> "".
Proof.
  destruct data as [| b | n | f | s | l | d]; cbn [interpreter_input];
    intros H; try contradiction.
  - exists "None". split; [reflexivity|discriminate].
  - destruct H as [Hne Hok].
    destruct (json_loads s) as [v|e] eqn:E.
    + rewrite (generate_response_parsed s v E).
      apply handle_returns_text, (Hok v eq_refl).
    + unfold generate_response. rewrite E. cbn [bind try_except].
      destruct (isinstance_exn e _); cbn.
      * exists s. split; [reflexivity|exact Hne].
      * eexists; split; [reflexivity|discriminate].
  - rewrite generate_response_dict. apply handle_returns_text, H.
Qed.

End Claims.
End Interpreter.

(** * Properties of the completion client *)

Module Client.
Import ClaudeApi Notions.

Section Claims.
Context {rt : Runtime} {world : World}.

Lemma send_claude_request_returns payload :
  exists v, send_claude_request payload = Return v.
Proof.
  unfold send_claude_request, try_except2.
  destruct (send_claude_request_try payload) as [v|e]; [eauto|].
  destruct (isinstance_exn e [RequestException]); cbn; eauto.
Qed.

(** C8, as the code has it: on a reply with status 200 the client
    returns [None] when the reply does not decode, does not decode to
    a dict, has no [content], or has a [content] that is not a list
    with a first element that is a dict; when the first element is a
    dict it returns its [text], and the empty text when the dict has
    no [text]. *)
Theorem completion_text payload api_key response :
  getenv "CLAUDE_API_KEY" = Some api_key ->
  api_key <> "" ->
  requests_post CLAUDE_API_URL payload (request_headers api_key) 120
  = Return response ->
  status_code response = 200%Z ->
  send_claude_request payload
  = Return match first_content response with
           | Some (PyDict first) => default (PyStr "") (item first "text")
           | _ => PyNone
           end.
Proof.
  intros Hkey Hne Hpost Hstatus.
  unfold send_claude_request, send_claude_request_try, get_claude_api_key.
  rewrite Hkey. apply String.eqb_neq in Hne. cbn [truthy]. rewrite Hne.
  cbn [negb bind]. rewrite Hpost.
  cbn [bind]. rewrite Hstatus. cbn [Z.eqb Pos.eqb].
  unfold first_content.
  destruct (json response) as [[| b | n | f | s | l | d]|e];
    try reflexivity.
  - cbn [bind get].
    destruct (item d "content") as [[| b | n | f | s | [|first rest] | c]|];
      try reflexivity.
    + destruct b; reflexivity.
    + cbn. destruct (n =? 0)%Z; reflexivity.
    + cbn. destruct (float_is_zero f); reflexivity.
    + cbn. destruct (s =? ""); reflexivity.
    + destruct first; reflexivity.
    + cbn. destruct c; reflexivity.
  - unfold try_except2. cbn [bind].
    destruct (isinstance_exn e [RequestException]); reflexivity.
Qed.

End Claims.
End Client.

(** * Properties of the gateway *)

Module Gateway.
Import RepairAgent ClaudeApi Main.

Section Claims.
Context {rt : Runtime} {world : World}.

Lemma process_prompt_returns prompt customer_info key :
  exists v, process_prompt prompt customer_info key = Return v.
Proof.
  unfold process_prompt, analyze_customer_request, try_except.
  match goal with |- context [match ?b with _ => _ end] => destruct b end;
    eauto.
Qed.


(** A completion call that fails (a timeout, a refused connection)
    leaves the client without an answer. *)
Lemma failed_call_gives_none payload :
  (forall url body headers t, exists e,
      requests_post url body headers t = Raise e) ->
  send_claude_request payload = Return PyNone.
Proof.
  intros Hfail. unfold send_claude_request, send_claude_request_try.
  destruct get_claude_api_key as [api_key|e]; cbn [bind try_except2].
  - destruct (Hfail CLAUDE_API_URL payload (request_headers api_key) 120%Z)
      as (e & ->).
    unfold try_except2. cbn [bind].
    destruct (isinstance_exn e [RequestException]); reflexivity.
  - unfold try_except2.
    destruct (isinstance_exn e [RequestException]); reflexivity.
Qed.

(** When every completion call fails (a timeout, a refused
    connection), the gateway answers the prompt with the error result. *)
Lemma failed_call_is_error prompt :
  (forall url body headers t, exists e,
      requests_post url body headers t = Raise e) ->
  handle_prompt prompt
  = Return (error_result "Failed to get response from Claude API").
Proof.
  intros Hfail.
  assert (process_prompt prompt "" "repair_analysis" = Return PyNone) as H.
  { unfold process_prompt, analyze_customer_request, try_except.
    destruct (get_prompt_content "repair_analysis") as [base|e];
      cbn [bind]; [|reflexivity].
    destruct (combined_prompt base "" prompt) as [text|e];
      cbn [bind]; [|reflexivity].
    rewrite (failed_call_gives_none _ Hfail). reflexivity. }
  unfold handle_prompt, handle_prompt_try. rewrite H. reflexivity.
Qed.

(** C6: when the analysis gives no answer ([None]) the gateway returns
    status "error" with a fixed message that is not empty; when it
    gives an answer, status "success" with what [generate_response]
    makes of it; an exception raised on the way would become status
    "error" with its text; and [handle_prompt] returns in every case. *)
Theorem gateway_result prompt :
  match process_prompt prompt "" "repair_analysis" with
  | Return PyNone =>
      handle_prompt prompt
      = Return (PyDict [("status", PyStr "error");
                        ("message",
                         PyStr "Failed to get response from Claude API")])
      /\ "Failed to get response from Claude API" <> ""
  | Return claude_output =>
      exists response,
        generate_response claude_output = Return response
        /\ handle_prompt prompt
           = Return (PyDict [("status", PyStr "success");
                             ("response", response)])
  | Raise e =>
      handle_prompt prompt
      = Return (PyDict [("status", PyStr "error");
                        ("message", PyStr (exn_str e))])
  end
  /\ exists result, handle_prompt prompt = Return result.
Proof.
  unfold handle_prompt, handle_prompt_try.
  destruct (process_prompt prompt "" "repair_analysis") as [out|e];
    [|split; [reflexivity|eexists; reflexivity]].
  cbn [bind].
  destruct (Interpreter.generate_response_returns out) as [r Hr].
  destruct out; cbn [is_None]; try (split; [split|]; eauto; discriminate);
    rewrite Hr; cbn [bind try_except]; eauto.
Qed.

End Claims.
End Gateway.

(** * The properties at work, on the reference runtime *)

Module Examples.
Import RepairAgent ClaudeApi Main Notions Scenario Interpreter.

#[local] Existing Instance Reference.runtime.

Example model_number_text_loads :
  Json.loads model_number_text = Return (PyDict model_number_record).
Proof. vm_compute. reflexivity. Qed.

(** *** C1 *)



(** *** C2 *)

(** The empty text is answered with the empty text, and a record whose
    [further_questions] is a number with that number. *)
Lemma empty_or_non_text_answer :
  generate_response (PyStr "") = Return (PyStr "")
  /\ generate_response (PyDict numeric_questions_record) = Return (PyInt 5).
Proof. split; vm_compute; reflexivity. Qed.

Lemma interpreter_answers_text_witness :
  interpreter_input (PyStr model_number_text)
  /\ exists message,
       generate_response (PyStr model_number_text) = Return (PyStr message)
       /\ message <> "".
Proof.
  assert (interpreter_input (PyStr model_number_text)) as Hin.
  { split; [discriminate|]. intros v Hv.
    change (json_loads model_number_text) with (Json.loads model_number_text)
      in Hv.
    rewrite model_number_text_loads in Hv. injection Hv as <-.
    cbn. auto. }
  split; [exact Hin|].
  exact (interpreter_answers_text (PyStr model_number_text) Hin).
Defined.

(** *** C3 *)

Lemma contractor_dispatch_witness :
  validate_claude_response_structure (PyDict upper_case_high_record)
  = Return true
  /\ lower "HIGH" = "high"
  /\ generate_response (PyDict upper_case_high_record)
     = Return (PyStr "It seems your issue is rather complex, would you like for me to dispatch a contractor to your address?").
Proof.
  split; [reflexivity|]. split; [reflexivity|].
  refine (proj2 (contractor_dispatch upper_case_high_record eq_refl _)).
  right. exists "HIGH". split; reflexivity.
Defined.

(** *** C4 *)

Lemma unparsable_text_verbatim_witness :
  json_loads "Sorry, I cannot help with that."
  = Raise (Json.decode_error "Expecting value")
  /\ generate_response (PyStr "Sorry, I cannot help with that.")
     = Return (PyStr "Sorry, I cannot help with that.").
Proof.
  assert (json_loads "Sorry, I cannot help with that."
          = Raise (Json.decode_error "Expecting value")) as Hload
    by reflexivity.
  split; [exact Hload|].
  exact (unparsable_text_verbatim "Sorry, I cannot help with that."
           (Json.decode_error "Expecting value") Hload eq_refl).
Defined.

(** A text of two thousand opening brackets is not parsed:
    [json.loads] raises [RecursionError], which the inner [except]
    does not catch, and the answer is a diagnostic, not the text. *)
Lemma deep_text_not_verbatim :
  json_loads deep_text
  = Raise (Exn RecursionError
             "maximum recursion depth exceeded while decoding a JSON array from a unicode string")
  /\ generate_response (PyStr deep_text)
     = Return (PyStr "Error processing repair analysis: maximum recursion depth exceeded while decoding a JSON array from a unicode string")
  /\ generate_response (PyStr deep_text) <> Return (PyStr deep_text).
Proof.
  assert (generate_response (PyStr deep_text)
          = Return (PyStr "Error processing repair analysis: maximum recursion depth exceeded while decoding a JSON array from a unicode string"))
    as H by (vm_compute; reflexivity).
  split; [vm_compute; reflexivity|]. split; [exact H|].
  rewrite H. intros Heq. injection Heq as Heq.
  vm_compute in Heq. discriminate Heq.
Qed.

(** *** C7 *)

Lemma follow_up_questions_witness :
  (validate_claude_response_structure (PyDict model_number_record)
   = Return true
   /\ handle_claude_response (PyDict model_number_record)
      = Return (PyStr "What is the model number?")
   /\ generate_response (PyDict model_number_record)
      = Return (PyStr "What is the model number?"))
  /\ (validate_claude_response_structure (PyDict no_questions_record)
      = Return true
      /\ item no_questions_record "further_questions" = None
      /\ handle_claude_response (PyDict no_questions_record)
         = Return (PyStr "I need more information to help you, but no specific questions were provided.")
      /\ generate_response (PyDict no_questions_record)
         = Return (PyStr "I need more information to help you, but no specific questions were provided.")).
Proof.
  split.
  - split; [reflexivity|].
    refine (proj1 (follow_up_questions model_number_record "low"
                     eq_refl eq_refl eq_refl (or_intror eq_refl) eq_refl)
              "What is the model number?" eq_refl _).
    discriminate.
  - split; [reflexivity|]. split; [reflexivity|].
    exact (proj2 (follow_up_questions no_questions_record "medium"
                    eq_refl eq_refl eq_refl (or_introl eq_refl) eq_refl)
             (or_intror eq_refl)).
Defined.

(** *** C9 *)

(** A [parts_needed] of 4301 digits is neither [True] nor [False], the
    level is not "high", the three fields are present; yet the answer
    is a diagnostic, because the text for the log cannot be built. *)
Lemma huge_parts_needed_diagnostic :
  int_max_str = (10 ^ 4300)%Z
  /\ item huge_parts_record "parts_needed" = Some (PyInt int_max_str)
  /\ is_True (PyInt int_max_str) = false
  /\ is_False (PyInt int_max_str) = false
  /\ item huge_parts_record "complexity_level" = Some (PyStr "low")
  /\ lower "low" <> "high"
  /\ has_key huge_parts_record "further_inquiry" = true
  /\ handle_claude_response (PyDict huge_parts_record)
     = Return (PyStr "Error processing repair analysis: Exceeds the limit (4300 digits) for integer string conversion; use sys.set_int_max_str_digits() to increase the limit")
  /\ handle_claude_response (PyDict huge_parts_record)
     <> Return (PyStr "Unable to determine the appropriate next steps for this repair situation.").
Proof.
  assert (handle_claude_response (PyDict huge_parts_record)
          = Return (PyStr "Error processing repair analysis: Exceeds the limit (4300 digits) for integer string conversion; use sys.set_int_max_str_digits() to increase the limit"))
    as H by (vm_compute; reflexivity).
  split; [vm_compute; reflexivity|].
  split; [reflexivity|]. split; [reflexivity|]. split; [reflexivity|].
  split; [reflexivity|]. split; [discriminate|]. split; [reflexivity|].
  split; [exact H|]. rewrite H. discriminate.
Qed.

Lemma fallback_branch_reached_witness :
  (is_True (PyStr "true") = false
   /\ is_False (PyStr "true") = false
   /\ lower "low" <> "high"
   /\ has_str (PyStr "true")
   /\ has_str (PyBool true)
   /\ handle_claude_response (PyDict mistyped_record)
      = Return (PyStr "Unable to determine the appropriate next steps for this repair situation."))
  /\ (is_True (PyInt 1) = false
      /\ is_False (PyInt 1) = false
      /\ has_str (PyInt 1)
      /\ handle_claude_response (PyDict numeric_parts_record)
         = Return (PyStr "Unable to determine the appropriate next steps for this repair situation.")).
Proof.
  assert (lower "low" <> "high") as Hne by discriminate.
  assert (has_str (PyStr "true")) as Hs by (eexists; reflexivity).
  assert (has_str (PyBool true)) as Hb by (eexists; reflexivity).
  assert (has_str (PyInt 1)) as Hn by (eexists; reflexivity).
  split.
  - split; [reflexivity|]. split; [reflexivity|]. split; [exact Hne|].
    split; [exact Hs|]. split; [exact Hb|].
    exact (proj1 (fallback_branch_reached mistyped_record (PyStr "true")
                    "low" (PyBool true)
                    eq_refl eq_refl eq_refl eq_refl eq_refl Hne Hs Hb)).
  - split; [reflexivity|]. split; [reflexivity|]. split; [exact Hn|].
    exact (proj1 (fallback_branch_reached numeric_parts_record (PyInt 1)
                    "low" (PyBool true)
                    eq_refl eq_refl eq_refl eq_refl eq_refl Hne Hn Hb)).
Defined.

(** *** C10 *)

Lemma non_object_json_diagnostic_witness :
  json_loads "[1, 2]" = Return (PyList [PyInt 1; PyInt 2])
  /\ isinstance (PyList [PyInt 1; PyInt 2]) Tdict = false
  /\ generate_response (PyStr "[1, 2]") <> Return (PyStr "[1, 2]").
Proof.
  assert (json_loads "[1, 2]" = Return (PyList [PyInt 1; PyInt 2])) as Hload
    by reflexivity.
  split; [exact Hload|]. split; [reflexivity|].
  exact (proj2 (non_object_json_diagnostic "[1, 2]"
                  (PyList [PyInt 1; PyInt 2]) Hload eq_refl)).
Defined.

(** Texts that decode, but not to a dict. *)
Example number_text_diagnostic :
  generate_response (PyStr "42")
  = Return (PyStr "Error processing repair analysis: argument of type 'int' is not iterable").
Proof. reflexivity. Qed.

Example true_text_diagnostic :
  generate_response (PyStr "true")
  = Return (PyStr "Error processing repair analysis: argument of type 'bool' is not iterable").
Proof. reflexivity. Qed.

Example quoted_text_diagnostic :
  generate_response (PyStr (Json.q "hello"))
  = Return (PyStr "Error processing repair analysis: Missing required fields in Claude response: ['parts_needed', 'complexity_level', 'further_inquiry']").
Proof. reflexivity. Qed.

Example quoted_field_names_diagnostic :
  generate_response
    (PyStr (Json.q "parts_needed complexity_level further_inquiry"))
  = Return (PyStr "Error processing repair analysis: 'str' object has no attribute 'get'").
Proof. reflexivity. Qed.

Example list_text_diagnostic :
  generate_response (PyStr "[1, 2]")
  = Return (PyStr "Error processing repair analysis: Missing required fields in Claude response: ['parts_needed', 'complexity_level', 'further_inquiry']").
Proof. reflexivity. Qed.

(** No answer from upstream. *)
Example none_answer : generate_response PyNone = Return (PyStr "None").
Proof. reflexivity. Qed.

(** Empty instructions: the fixed message, not the empty text. *)
Example empty_instructions :
  handle_claude_response
    (PyDict [("parts_needed", PyBool false);
             ("complexity_level", PyStr "medium");
             ("further_inquiry", PyBool false);
             ("instructions", PyStr "")])
  = Return (PyStr "I should provide repair instructions, but none were generated.").
Proof. reflexivity. Qed.

(** *** C8 *)

(** On status 200 with a first content item that has no [text], the
    client returns the empty text, not [None]. *)
Lemma item_without_text_gives_empty_text :
  status_code (ok no_text_body) = 200%Z
  /\ first_content (ok no_text_body)
     = Some (PyDict [("type", PyStr "text")])
  /\ item [("type", PyStr "text")] "text" = None
  /\ @send_claude_request (world (Return (ok no_text_body))) some_payload
     = Return (PyStr "")
  /\ @send_claude_request (world (Return (ok no_text_body))) some_payload
     <> Return PyNone.
Proof. repeat split; try reflexivity. discriminate. Qed.

Lemma completion_text_witness :
  @getenv (world (Return (ok (message_body "Replace the washer."))))
    "CLAUDE_API_KEY" = Some "test-key"
  /\ status_code (ok (message_body "Replace the washer.")) = 200%Z
  /\ @send_claude_request
       (world (Return (ok (message_body "Replace the washer."))))
       some_payload
     = Return (PyStr "Replace the washer.").
Proof.
  split; [reflexivity|]. split; [reflexivity|].
  refine (@Client.completion_text
            (world (Return (ok (message_body "Replace the washer."))))
            some_payload "test-key"
            (ok (message_body "Replace the washer."))
            eq_refl _ eq_refl eq_refl).
  discriminate.
Defined.

Example not_a_list_content :
  @send_claude_request
    (world (Return (ok ("{" ++ Json.q "content" ++ ": " ++ Json.q "hi" ++ "}"))))
    some_payload
  = Return PyNone.
Proof. reflexivity. Qed.

Example first_item_not_a_dict :
  @send_claude_request
    (world (Return (ok ("{" ++ Json.q "content" ++ ": [" ++ Json.q "hi" ++ "]}"))))
    some_payload
  = Return PyNone.
Proof. reflexivity. Qed.

Example service_error_status :
  @send_claude_request
    (world (Return {| status_code := 500; text := "overloaded";
                      json := Json.loads "overloaded" |}))
    some_payload
  = Return PyNone.
Proof. reflexivity. Qed.

(** *** C6 *)

Example gateway_timeout :
  @handle_prompt Reference.runtime (world timeout) "My tap drips."
  = Return (PyDict [("status", PyStr "error");
                    ("message",
                     PyStr "Failed to get response from Claude API")]).
Proof. vm_compute. reflexivity. Qed.

Example gateway_plain_answer :
  @handle_prompt Reference.runtime
    (world (Return (ok (message_body "Sorry, I cannot help with that."))))
    "My tap drips."
  = Return (PyDict [("status", PyStr "success");
                    ("response", PyStr "Sorry, I cannot help with that.")]).
Proof. vm_compute. reflexivity. Qed.

Example gateway_record_answer :
  @handle_prompt Reference.runtime (world (Return (ok record_reply_body)))
    "My boiler needs a new pump."
  = Return (PyDict [("status", PyStr "success");
                    ("response",
                     PyStr "It seems your issue is rather complex, would you like for me to dispatch a contractor to your address?")]).
Proof. vm_compute. reflexivity. Qed.

(** An empty text from the service counts as no answer. *)
Example gateway_empty_text :
  @handle_prompt Reference.runtime (world (Return (ok no_text_body)))
    "My tap drips."
  = Return (PyDict [("status", PyStr "error");
                    ("message",
                     PyStr "Failed to get response from Claude API")]).
Proof. vm_compute. reflexivity. Qed.

End Examples.

(** * More on the decision logic and the validator *)

Module Decision.
Import RepairAgent Notions Interpreter.


(** On a value that is not a dict the validator never answers [True]:
    it answers [False] or raises. *)
Theorem validator_rejects_non_dict v :
  isinstance v Tdict = false ->
  validate_claude_response_structure v <> Return true.
Proof.
  intros Hv. unfold validate_claude_response_structure, required_types.
  destruct v as [| b | n | f | t | l | d]; try discriminate Hv;
    cbn [check_required contains getitem bind]; try discriminate.
  - destruct (substring_of "parts_needed" t); cbn; discriminate.
  - destruct (existsb _ l); cbn; discriminate.
Qed.

Section Answers.
Context {rt : Runtime}.

(** The answer to a well-formed record: the contractor message when
    parts are needed or the level is high; otherwise the questions, or
    the instructions, of the record, with a fixed message in place of
    one that is missing or empty.  No diagnostic and neither of the
    two fallbacks is produced. *)
Theorem valid_record_decision d :
  validate_claude_response_structure (PyDict d) = Return true ->
  exists parts level inquiry,
    item d "parts_needed" = Some (PyBool parts)
    /\ item d "complexity_level" = Some (PyStr level)
    /\ item d "further_inquiry" = Some (PyBool inquiry)
    /\ handle_claude_response (PyDict d)
       = Return
           (if parts || String.eqb (lower level) "high"
            then PyStr "It seems your issue is rather complex, would you like for me to dispatch a contractor to your address?"
            else if inquiry
            then field_or (item d "further_questions")
                   "I need more information to help you, but no specific questions were provided."
            else field_or (item d "instructions")
                   "I should provide repair instructions, but none were generated.").
Proof.
  intros Hv.
  destruct (validate_true d Hv) as (p & level & i & Hp & Hl & Hi & Hlevel).
  exists p, level, i. repeat split; try assumption.
  rewrite (handle_present d _ _ _ Hp Hl Hi (has_str_bool p) (has_str_bool i)).
  unfold decision, field_or.
  destruct p; [reflexivity|]. cbn [is_True is_False orb andb].
  unfold valid_complexity, str_in in *. cbn [existsb] in *.
  destruct (String.eqb (lower level) "high"); [reflexivity|].
  assert (String.eqb (lower level) "medium"
          || (String.eqb (lower level) "low" || false) = true) as ->.
  { destruct (String.eqb (lower level) "low"),
      (String.eqb (lower level) "medium"); try reflexivity;
      discriminate Hlevel. }
  destruct i; cbn [is_True is_False].
  - destruct (item d "further_questions") as [q|]; cbn;
      [destruct (truthy q)|]; reflexivity.
  - destruct (item d "instructions") as [q|]; cbn;
      [destruct (truthy q)|]; reflexivity.
Qed.

(** Rule 2b: a well-formed record with [parts_needed] false, a level
    that is "medium" or "low" once lowered, and [further_inquiry]
    false gets exactly its [instructions] when that is a non-empty
    text, and the fixed no-instructions message when it is the empty
    text or absent. *)
Theorem repair_instructions d level :
  validate_claude_response_structure (PyDict d) = Return true ->
  item d "parts_needed" = Some (PyBool false) ->
  item d "complexity_level" = Some (PyStr level) ->
  lower level = "medium" \/ lower level = "low" ->
  item d "further_inquiry" = Some (PyBool false) ->
  (forall instructions,
     item d "instructions" = Some (PyStr instructions) ->
     instructions <> "" ->
     handle_claude_response (PyDict d) = Return (PyStr instructions))
  /\ (item d "instructions" = Some (PyStr "")
      \/ item d "instructions" = None ->
      handle_claude_response (PyDict d)
      = Return (PyStr "I should provide repair instructions, but none were generated.")).
Proof.
  intros Hv Hp Hl Hlevel Hi.
  assert (handle_claude_response (PyDict d)
          = Return (field_or (item d "instructions") no_instructions_message))
    as H.
  { rewrite (handle_present d _ _ _ Hp Hl Hi
               (has_str_bool false) (has_str_bool false)).
    unfold decision, field_or.
    destruct Hlevel as [-> | ->]; cbn;
      (destruct (item d "instructions") as [q|]; cbn;
       [destruct (truthy q)|]; reflexivity). }
  rewrite H. split.
  - intros instructions -> Hne.
    destruct instructions; [contradiction|reflexivity].
  - intros [-> | ->]; reflexivity.
Qed.

(** A [further_inquiry] that is neither [True] nor [False] and can be
    written into the logged text, with [parts_needed] false and a
    level that is "medium" or "low" once lowered, gets the
    unclear-inquiry message. *)
Theorem unclear_inquiry_status d level inquiry :
  item d "parts_needed" = Some (PyBool false) ->
  item d "complexity_level" = Some (PyStr level) ->
  lower level = "medium" \/ lower level = "low" ->
  item d "further_inquiry" = Some inquiry ->
  is_True inquiry = false ->
  is_False inquiry = false ->
  has_str inquiry ->
  handle_claude_response (PyDict d)
  = Return (PyStr "Unable to determine next steps due to unclear inquiry status.").
Proof.
  intros Hp Hl Hlevel Hi Ht Hf Hs.
  rewrite (handle_present d _ _ _ Hp Hl Hi (has_str_bool false) Hs).
  unfold decision. rewrite Ht, Hf.
  destruct Hlevel as [-> | ->]; reflexivity.
Qed.

(** A level text that is none of low, medium, high once lowered, with a
    [parts_needed] that is not [True], both [parts_needed] and
    [further_inquiry] being values that can be written into the logged
    text, gets the fallback message. *)
Theorem unknown_level_fallback d parts level inquiry :
  item d "further_inquiry" = Some inquiry ->
  item d "parts_needed" = Some parts ->
  is_True parts = false ->
  item d "complexity_level" = Some (PyStr level) ->
  lower level <> "low" ->
  lower level <> "medium" ->
  lower level <> "high" ->
  has_str parts ->
  has_str inquiry ->
  handle_claude_response (PyDict d)
  = Return (PyStr "Unable to determine the appropriate next steps for this repair situation.").
Proof.
  intros Hi Hp Ht Hl Hlow Hmedium Hhigh Hsp Hsi.
  rewrite (handle_present d _ _ _ Hp Hl Hi Hsp Hsi).
  unfold decision. rewrite Ht.
  apply String.eqb_neq in Hlow, Hmedium, Hhigh.
  unfold str_in. cbn [existsb orb]. rewrite Hlow, Hmedium, Hhigh.
  cbn. rewrite andb_false_r. reflexivity.
Qed.

(** A [complexity_level] that is not a text, the three fields being
    present, gets the diagnostic of the failed [lower], also when
    parts are needed. *)
Theorem level_not_text_diagnostic d level :
  has_key d "parts_needed" = true ->
  has_key d "further_inquiry" = true ->
  item d "complexity_level" = Some level ->
  isinstance level Tstr = false ->
  handle_claude_response (PyDict d)
  = Return (PyStr ("Error processing repair analysis: '" ++ type_name level
                   ++ "' object has no attribute 'lower'")).
Proof.
  intros Hp Hi Hl Ht.
  rewrite handle_claude_response_caught, handle_try_present.
  - rewrite Hl. cbn [default from_option id].
    destruct level; try discriminate Ht; reflexivity.
  - apply absent_fields_nil. unfold has_key in *. rewrite Hl. auto.
Qed.

(** Two records get the same answer when they agree on parts_needed,
    further_inquiry, further_questions and instructions, and on the
    level up to the case of its letters: the order of the keys, other
    keys and the case of the level do not matter. *)
Theorem answer_depends_on_read_fields d1 d2 :
  (forall field, In field read_fields -> item d1 field = item d2 field) ->
  lowered_level (item d1 "complexity_level")
  = lowered_level (item d2 "complexity_level") ->
  handle_claude_response (PyDict d1) = handle_claude_response (PyDict d2).
Proof.
  intros Hsame Hlevel.
  assert (item d1 "parts_needed" = item d2 "parts_needed") as Hp
    by (apply Hsame; cbn; auto).
  assert (item d1 "further_inquiry" = item d2 "further_inquiry") as Hi
    by (apply Hsame; cbn; auto).
  assert (item d1 "further_questions" = item d2 "further_questions") as Hq
    by (apply Hsame; cbn; auto).
  assert (item d1 "instructions" = item d2 "instructions") as Hins
    by (apply Hsame; cbn; auto 6).
  assert (has_key d1 "complexity_level" = has_key d2 "complexity_level")
    as Hk.
  { unfold has_key, lowered_level in *.
    destruct (item d1 "complexity_level") as [[]|],
      (item d2 "complexity_level") as [[]|];
      try reflexivity; discriminate Hlevel. }
  assert (absent_fields d1 = absent_fields d2) as Habs.
  { unfold absent_fields, required_fields. cbn [List.filter].
    rewrite Hk. unfold has_key. rewrite Hp, Hi. reflexivity. }
  rewrite !handle_claude_response_caught.
  destruct (decide (absent_fields d1 = [])) as [H1|H1].
  - rewrite (handle_try_present d1 H1).
    rewrite Habs in H1. rewrite (handle_try_present d2 H1).
    rewrite Hp, Hi, Hq, Hins.
    assert (str_lower (default (PyStr "") (item d1 "complexity_level"))
            = str_lower (default (PyStr "") (item d2 "complexity_level")))
      as ->; [|reflexivity].
    unfold lowered_level in Hlevel.
    destruct (item d1 "complexity_level") as [[]|],
      (item d2 "complexity_level") as [[]|];
      try discriminate Hlevel; try reflexivity.
    injection Hlevel as Hlevel. cbn. rewrite Hlevel. reflexivity.
  - rewrite (handle_try_absent d1 H1).
    rewrite Habs in H1. rewrite (handle_try_absent d2 H1).
    rewrite Habs. reflexivity.
Qed.

(** A text that decodes to a dict gets the answer the dict gets. *)
Theorem text_and_record_agree s d :
  json_loads s = Return (PyDict d) ->
  generate_response (PyStr s) = generate_response (PyDict d).
Proof.
  intros Hload.
  rewrite (generate_response_parsed s _ Hload), generate_response_dict.
  reflexivity.
Qed.

End Answers.
End Decision.

(** * The prompt store *)

Module PromptStore.
Import ClaudeApi Notions.

Section Store.
Context {rt : Runtime} {world : World}.

(** With a prompt file that holds a dict, the prompts are loaded
    exactly when the file exists and the dict has a [prompts] entry
    that has a length; what is loaded is that entry. *)
Theorem prompts_loaded d prompts :
  yaml_safe_load = Return (PyDict d) ->
  load_prompts_from_yaml = Return prompts
  <-> yaml_exists = true
      /\ item d "prompts" = Some prompts
      /\ sized prompts = true.
Proof.
  intros Hdoc. unfold load_prompts_from_yaml, log_and_raise, try_except.
  destruct yaml_exists; cbn [negb];
    [|split; [discriminate|intros (H & _); discriminate H]].
  rewrite Hdoc. cbn [bind truthy contains]. unfold has_key.
  destruct (item d "prompts") as [p|] eqn:Hp.
  - assert (nonempty d = true) as ->
      by (destruct d; [discriminate Hp|reflexivity]).
    cbn [negb bind getitem]. rewrite Hp. cbn [bind].
    destruct p; cbn; split;
      try (intros [= <-]; auto);
      try (intros (_ & [= <-] & _); reflexivity);
      try (intros (_ & [= <-] & H); discriminate H);
      try discriminate.
  - destruct (nonempty d); cbn; split;
      try discriminate; intros (_ & H & _); discriminate H.
Qed.

(** The prompts are not loaded, with [FileNotFoundError], when the
    file does not exist, and with [ValueError] when its document is
    empty or has no [prompts]. *)
Theorem prompts_not_loaded :
  (yaml_exists = false ->
   load_prompts_from_yaml
   = Raise (Exn FileNotFoundError
              "Prompting YAML file not found: prompting.yaml"))
  /\ (forall doc,
        yaml_exists = true ->
        yaml_safe_load = Return doc ->
        truthy doc = false \/ contains "prompts" doc = Return false ->
        load_prompts_from_yaml
        = Raise (Exn ValueError
                   "Invalid YAML structure: 'prompts' key not found")).
Proof.
  unfold load_prompts_from_yaml, log_and_raise, try_except. split.
  - intros ->. reflexivity.
  - intros doc -> -> H. cbn [negb bind].
    destruct (truthy doc); cbn [negb bind]; [|reflexivity].
    destruct H as [H|H]; [discriminate H|]. rewrite H. reflexivity.
Qed.

(** Looking a prompt up in loaded prompts: an unknown key raises
    [KeyError]; an entry with a non-empty [content] text gives that
    text; an entry without [content], or with the empty text, raises
    [ValueError]. *)
Theorem prompt_lookup prompts prompt_key :
  load_prompts_from_yaml = Return (PyDict prompts) ->
  (item prompts prompt_key = None ->
   get_prompt_content prompt_key
   = Raise (key_error ("Prompt key '" ++ prompt_key
                       ++ "' not found in YAML configuration")))
  /\ (forall entry content,
        item prompts prompt_key = Some (PyDict entry) ->
        item entry "content" = Some (PyStr content) ->
        content <> "" ->
        get_prompt_content prompt_key = Return (PyStr content))
  /\ (forall entry,
        item prompts prompt_key = Some (PyDict entry) ->
        item entry "content" = None
        \/ item entry "content" = Some (PyStr "") ->
        get_prompt_content prompt_key
        = Raise (Exn ValueError
                   ("Empty content for prompt key '" ++ prompt_key ++ "'"))).
Proof.
  intros Hload. unfold get_prompt_content, log_and_raise, try_except.
  rewrite Hload. cbn [bind contains getitem]. unfold has_key.
  split; [|split].
  - intros ->. reflexivity.
  - intros entry content -> Hc Hne. cbn [negb bind get]. rewrite Hc.
    cbn [default from_option id truthy].
    apply String.eqb_neq in Hne. rewrite Hne. reflexivity.
  - intros entry -> [Hc|Hc]; cbn [negb bind get]; rewrite Hc; reflexivity.
Qed.

(** [get_available_prompts] always returns a list: the keys of the
    loaded prompts, in their order, when the prompts are a dict, and
    the empty list when the prompts cannot be loaded. *)
Theorem available_prompts :
  exists names,
    get_available_prompts = Return (PyList names)
    /\ (forall prompts,
          load_prompts_from_yaml = Return (PyDict prompts) ->
          names = map (fun entry => PyStr (fst entry)) prompts)
    /\ (forall e, load_prompts_from_yaml = Raise e -> names = []).
Proof.
  unfold get_available_prompts, try_except.
  destruct load_prompts_from_yaml as [p|e]; cbn [bind].
  - destruct p; cbn;
      try (exists []; split; [reflexivity|split; intros; discriminate]).
    eexists. split; [reflexivity|]. split.
    + intros prompts [= <-]. reflexivity.
    + intros e H. discriminate H.
  - exists []. split; [reflexivity|]. split; [intros; discriminate|auto].
Qed.

End Store.
End PromptStore.

(** * The completion client and the analysis, as a whole *)

Module Completion.
Import ClaudeApi Notions.

Section Completion.
Context {rt : Runtime} {world : World}.

(** Without a credential, with a call that fails, or with a status
    other than 200, the client returns [None]. *)
Theorem client_failure_gives_none payload :
  getenv "CLAUDE_API_KEY" = None
  \/ getenv "CLAUDE_API_KEY" = Some ""
  \/ (forall url body headers t, exists e,
         requests_post url body headers t = Raise e)
  \/ (forall url body headers t, exists response,
         requests_post url body headers t = Return response
         /\ status_code response <> 200%Z) ->
  send_claude_request payload = Return PyNone.
Proof.
  intros H. unfold send_claude_request, send_claude_request_try,
    get_claude_api_key, try_except2.
  destruct H as [-> | [-> | [H | H]]]; try reflexivity.
  - destruct (getenv "CLAUDE_API_KEY") as [k|]; [|reflexivity].
    destruct (negb (truthy (PyStr k))); [reflexivity|]. cbn [bind].
    destruct (H CLAUDE_API_URL payload (request_headers k) 120%Z)
      as (e & ->).
    cbn [bind]. destruct (isinstance_exn e [RequestException]); reflexivity.
  - destruct (getenv "CLAUDE_API_KEY") as [k|]; [|reflexivity].
    destruct (negb (truthy (PyStr k))); [reflexivity|]. cbn [bind].
    destruct (H CLAUDE_API_URL payload (request_headers k) 120%Z)
      as (response & -> & Hstatus).
    cbn [bind]. apply Z.eqb_neq in Hstatus. rewrite Hstatus. reflexivity.
Qed.

(** On a reply with status 200: [None], the [text] of the first content
    item, or the empty text when the item has none. *)
Lemma reply_text payload api_key response :
  getenv "CLAUDE_API_KEY" = Some api_key ->
  api_key <> "" ->
  requests_post CLAUDE_API_URL payload (request_headers api_key) 120
  = Return response ->
  status_code response = 200%Z ->
  send_claude_request payload
  = Return match first_content response with
           | Some (PyDict first) => default (PyStr "") (item first "text")
           | _ => PyNone
           end.
Proof.
  intros Hkey Hne Hpost Hstatus.
  unfold send_claude_request, send_claude_request_try, get_claude_api_key.
  rewrite Hkey. apply String.eqb_neq in Hne. cbn [truthy]. rewrite Hne.
  cbn [negb bind]. rewrite Hpost.
  cbn [bind]. rewrite Hstatus. cbn [Z.eqb Pos.eqb].
  unfold first_content.
  destruct (json response) as [[| b | n | f | s | l | d]|e];
    try reflexivity.
  - cbn [bind get].
    destruct (item d "content") as [[| b | n | f | s | [|first rest] | c]|];
      try reflexivity.
    + destruct b; reflexivity.
    + cbn. destruct (n =? 0)%Z; reflexivity.
    + cbn. destruct (float_is_zero f); reflexivity.
    + cbn. destruct (s =? ""); reflexivity.
    + destruct first; reflexivity.
    + cbn. destruct c; reflexivity.
  - unfold try_except2. cbn [bind].
    destruct (isinstance_exn e [RequestException]); reflexivity.
Qed.

Lemma client_returns payload :
  exists v, send_claude_request payload = Return v.
Proof.
  unfold send_claude_request, try_except2.
  destruct (send_claude_request_try payload) as [v|e]; [eauto|].
  destruct (isinstance_exn e [RequestException]); cbn; eauto.
Qed.

(** Neither the client nor the analysis raises, and the analysis
    returns [None] or a value that counts as true and has a length. *)
Theorem analysis_never_raises payload customer_info customer_prompt key :
  (exists v, send_claude_request payload = Return v)
  /\ exists v,
       analyze_customer_request customer_info customer_prompt key = Return v
       /\ (v = PyNone \/ (truthy v = true /\ sized v = true)).
Proof.
  split; [apply client_returns|].
  unfold analyze_customer_request, try_except.
  destruct (get_prompt_content key) as [base|e]; cbn [bind];
    [|exists PyNone; auto].
  destruct (combined_prompt base customer_info customer_prompt)
    as [text|e]; cbn [bind]; [|exists PyNone; auto].
  destruct (send_claude_request _) as [response|e]; cbn [bind];
    [|exists PyNone; auto].
  destruct (truthy response) eqn:Ht; [|exists PyNone; auto].
  destruct response; cbn; eauto 6.
Qed.

(** With a prompt text at hand, a credential, and a reply with status
    200 whose first content item has a non-empty [text], the analysis
    returns that text. *)
Lemma analysis_returns_text
    customer_info customer_prompt key base api_key response first reply :
  get_prompt_content key = Return (PyStr base) ->
  getenv "CLAUDE_API_KEY" = Some api_key ->
  api_key <> "" ->
  requests_post CLAUDE_API_URL
    (PyDict
       [("model", PyStr CLAUDE_MODEL);
        ("max_tokens", PyInt 2048);
        ("messages",
         PyList
           [PyDict
              [("role", PyStr "user");
               ("content",
                PyStr (base ++ newline ++ newline
                       ++ "            Customer Information:" ++ newline
                       ++ "            " ++ customer_info
                       ++ newline ++ newline
                       ++ "            Customer Request:" ++ newline
                       ++ "            " ++ customer_prompt))]])])
    (request_headers api_key) 120
  = Return response ->
  status_code response = 200%Z ->
  first_content response = Some (PyDict first) ->
  item first "text" = Some (PyStr reply) ->
  reply <> "" ->
  analyze_customer_request customer_info customer_prompt key
  = Return (PyStr reply).
Proof.
  intros Hbase Hkey Hne Hpost Hstatus Hfirst Htext Hreply.
  unfold analyze_customer_request, try_except. rewrite Hbase.
  cbn [bind combined_prompt str].
  rewrite (reply_text _ api_key response Hkey Hne Hpost Hstatus).
  rewrite Hfirst, Htext. cbn [default from_option id bind truthy].
  apply String.eqb_neq in Hreply. rewrite Hreply. reflexivity.
Qed.

End Completion.
End Completion.

(** * The gateway, from the prompt to the result *)

Module EndToEnd.
Import RepairAgent ClaudeApi Main Notions.

Section EndToEnd.
Context {rt : Runtime} {world : World}.


(** Without the prompt file, or without a credential, every prompt is
    answered with status "error" and the fixed message, whatever the
    service would say. *)
Theorem misconfigured_is_error prompt :
  yaml_exists = false
  \/ getenv "CLAUDE_API_KEY" = None
  \/ getenv "CLAUDE_API_KEY" = Some "" ->
  handle_prompt prompt
  = Return (PyDict [("status", PyStr "error");
                    ("message",
                     PyStr "Failed to get response from Claude API")]).
Proof.
  intros H.
  assert (process_prompt prompt "" "repair_analysis" = Return PyNone) as Hp.
  { unfold process_prompt, analyze_customer_request, try_except.
    destruct H as [H|H].
    - unfold get_prompt_content, load_prompts_from_yaml, log_and_raise,
        try_except. rewrite H. reflexivity.
    - destruct (get_prompt_content "repair_analysis") as [base|e];
        cbn [bind]; [|reflexivity].
      destruct (combined_prompt base "" prompt) as [text|e];
        cbn [bind]; [|reflexivity].
      unfold send_claude_request, send_claude_request_try,
        get_claude_api_key, try_except2.
      destruct H as [-> | ->]; reflexivity. }
  unfold handle_prompt, handle_prompt_try. rewrite Hp. reflexivity.
Qed.

(** When every completion call fails (a timeout, a refused
    connection), the gateway answers the prompt with status "error"
    and the fixed message. *)
Theorem transport_failure_is_error prompt :
  (forall url body headers t, exists e,
      requests_post url body headers t = Raise e) ->
  handle_prompt prompt
  = Return (PyDict [("status", PyStr "error");
                    ("message",
                     PyStr "Failed to get response from Claude API")]).
Proof.
  intros Hfail. exact (Gateway.failed_call_is_error prompt Hfail).
Qed.

(** With the prompt text of "repair_analysis" at hand, a credential,
    and a reply with status 200 whose first content item has a
    non-empty [text], the analysis gives that text and the gateway
    answers with status "success" and what [generate_response] makes
    of the text.  The request goes to the messages URL with the key in
    its headers, and holds the model, the token budget of 2048 and one
    user message: the prompt text, then the customer information
    (empty) and the customer request under their headings. *)
Theorem prompt_answered prompt base api_key response first reply :
  get_prompt_content "repair_analysis" = Return (PyStr base) ->
  getenv "CLAUDE_API_KEY" = Some api_key ->
  api_key <> "" ->
  requests_post "https://api.anthropic.com/v1/messages"
    (PyDict
       [("model", PyStr "claude-3-5-sonnet-20241022");
        ("max_tokens", PyInt 2048);
        ("messages",
         PyList
           [PyDict
              [("role", PyStr "user");
               ("content",
                PyStr (base ++ lf ++ lf
                       ++ "            Customer Information:" ++ lf
                       ++ "            " ++ lf ++ lf
                       ++ "            Customer Request:" ++ lf
                       ++ "            " ++ prompt))]])])
    [("Content-Type", "application/json");
     ("x-api-key", api_key);
     ("anthropic-version", "2023-06-01")]
    120
  = Return response ->
  status_code response = 200%Z ->
  first_content response = Some (PyDict first) ->
  item first "text" = Some (PyStr reply) ->
  reply <> "" ->
  process_prompt prompt "" "repair_analysis" = Return (PyStr reply)
  /\ exists answer,
       generate_response (PyStr reply) = Return answer
       /\ handle_prompt prompt
          = Return (PyDict [("status", PyStr "success");
                            ("response", answer)]).
Proof.
  intros Hbase Hkey Hne Hpost Hstatus Hfirst Htext Hreply.
  assert (process_prompt prompt "" "repair_analysis" = Return (PyStr reply))
    as Hp.
  { unfold process_prompt.
    exact (Completion.analysis_returns_text "" prompt "repair_analysis"
             base api_key response first reply
             Hbase Hkey Hne Hpost Hstatus Hfirst Htext Hreply). }
  split; [exact Hp|].
  destruct (Interpreter.generate_response_returns (PyStr reply)) as [r Hr].
  exists r. split; [exact Hr|].
  unfold handle_prompt, handle_prompt_try. rewrite Hp. cbn [bind is_None].
  rewrite Hr. reflexivity.
Qed.

(** A reply with status 200 that gives no text that counts as true (no
    content list, a first item that is not a dict, an item without
    [text] or with the empty text) is answered with status "error" and
    the fixed message. *)
Theorem reply_without_text_is_error prompt api_key response :
  getenv "CLAUDE_API_KEY" = Some api_key ->
  api_key <> "" ->
  (forall payload,
     requests_post "https://api.anthropic.com/v1/messages" payload
       [("Content-Type", "application/json");
        ("x-api-key", api_key);
        ("anthropic-version", "2023-06-01")]
       120
     = Return response) ->
  status_code response = 200%Z ->
  lacks_text response = true ->
  handle_prompt prompt
  = Return (PyDict [("status", PyStr "error");
                    ("message",
                     PyStr "Failed to get response from Claude API")]).
Proof.
  intros Hkey Hne Hpost Hstatus Hlacks.
  assert (process_prompt prompt "" "repair_analysis" = Return PyNone) as Hp.
  { unfold process_prompt, analyze_customer_request, try_except.
    destruct (get_prompt_content "repair_analysis") as [base|e];
      cbn [bind]; [|reflexivity].
    destruct (combined_prompt base "" prompt) as [text|e];
      cbn [bind]; [|reflexivity].
    rewrite (Completion.reply_text _ api_key response Hkey Hne
               (Hpost _) Hstatus).
    unfold lacks_text in Hlacks.
    destruct (first_content response) as [[| | | | | |first]|];
      try reflexivity.
    apply negb_true_iff in Hlacks. cbn [bind]. rewrite Hlacks.
    reflexivity. }
  unfold handle_prompt, handle_prompt_try. rewrite Hp. reflexivity.
Qed.

End EndToEnd.
End EndToEnd.

(** * These properties at work, on the reference runtime *)

Module Checks.
Import RepairAgent ClaudeApi Main Notions Scenario.

#[local] Existing Instance Reference.runtime.

(** *** The decision logic and the validator *)

Lemma validator_rejects_non_dict_witness :
  isinstance (PyStr "parts_needed") Tdict = false
  /\ validate_claude_response_structure (PyStr "parts_needed") <> Return true.
Proof.
  split; [reflexivity|].
  exact (Decision.validator_rejects_non_dict (PyStr "parts_needed") eq_refl).
Defined.

(** On a text that holds a field name the validator raises. *)
Example validator_raises_on_text :
  validate_claude_response_structure (PyStr "parts_needed")
  = Raise (Exn TypeError "string indices must be integers, not 'str'").
Proof. reflexivity. Qed.

Lemma valid_record_decision_witness :
  validate_claude_response_structure (PyDict repair_instructions_record)
  = Return true
  /\ exists parts level inquiry,
       item repair_instructions_record "parts_needed" = Some (PyBool parts)
       /\ item repair_instructions_record "complexity_level"
          = Some (PyStr level)
       /\ item repair_instructions_record "further_inquiry"
          = Some (PyBool inquiry)
       /\ handle_claude_response (PyDict repair_instructions_record)
          = Return
              (if parts || String.eqb (lower level) "high"
               then PyStr "It seems your issue is rather complex, would you like for me to dispatch a contractor to your address?"
               else if inquiry
               then field_or (item repair_instructions_record
                                "further_questions")
                      "I need more information to help you, but no specific questions were provided."
               else field_or (item repair_instructions_record "instructions")
                      "I should provide repair instructions, but none were generated.").
Proof.
  split; [reflexivity|].
  exact (Decision.valid_record_decision repair_instructions_record eq_refl).
Defined.

Lemma repair_instructions_witness :
  (validate_claude_response_structure (PyDict repair_instructions_record)
   = Return true
   /\ lower "Medium" = "medium"
   /\ handle_claude_response (PyDict repair_instructions_record)
      = Return (PyStr "Tighten the valve."))
  /\ (validate_claude_response_structure (PyDict empty_instructions_record)
      = Return true
      /\ item empty_instructions_record "instructions" = Some (PyStr "")
      /\ handle_claude_response (PyDict empty_instructions_record)
         = Return (PyStr "I should provide repair instructions, but none were generated.")).
Proof.
  split.
  - split; [reflexivity|]. split; [reflexivity|].
    refine (proj1 (Decision.repair_instructions repair_instructions_record
                     "Medium" eq_refl eq_refl eq_refl (or_introl eq_refl)
                     eq_refl)
              "Tighten the valve." eq_refl _).
    discriminate.
  - split; [reflexivity|]. split; [reflexivity|].
    exact (proj2 (Decision.repair_instructions empty_instructions_record
                    "low" eq_refl eq_refl eq_refl (or_intror eq_refl)
                    eq_refl)
             (or_introl eq_refl)).
Defined.

Lemma unclear_inquiry_status_witness :
  is_True (PyStr "yes") = false
  /\ is_False (PyStr "yes") = false
  /\ has_str (PyStr "yes")
  /\ handle_claude_response (PyDict unclear_inquiry_record)
     = Return (PyStr "Unable to determine next steps due to unclear inquiry status.").
Proof.
  assert (has_str (PyStr "yes")) as Hs by (eexists; reflexivity).
  split; [reflexivity|]. split; [reflexivity|]. split; [exact Hs|].
  exact (Decision.unclear_inquiry_status unclear_inquiry_record "low"
           (PyStr "yes") eq_refl eq_refl (or_intror eq_refl) eq_refl
           eq_refl eq_refl Hs).
Defined.

Lemma unknown_level_fallback_witness :
  lower "extreme" <> "low"
  /\ lower "extreme" <> "medium"
  /\ lower "extreme" <> "high"
  /\ has_str (PyBool false)
  /\ handle_claude_response (PyDict unknown_level_record)
     = Return (PyStr "Unable to determine the appropriate next steps for this repair situation.").
Proof.
  assert (has_str (PyBool false)) as Hs by (eexists; reflexivity).
  assert (lower "extreme" <> "low") as H1 by discriminate.
  assert (lower "extreme" <> "medium") as H2 by discriminate.
  assert (lower "extreme" <> "high") as H3 by discriminate.
  split; [exact H1|]. split; [exact H2|]. split; [exact H3|].
  split; [exact Hs|].
  exact (Decision.unknown_level_fallback unknown_level_record (PyBool false)
           "extreme" (PyBool false) eq_refl eq_refl eq_refl eq_refl
           H1 H2 H3 Hs Hs).
Defined.

Lemma level_not_text_diagnostic_witness :
  item numeric_level_record "parts_needed" = Some (PyBool true)
  /\ isinstance (PyInt 3) Tstr = false
  /\ handle_claude_response (PyDict numeric_level_record)
     = Return (PyStr "Error processing repair analysis: 'int' object has no attribute 'lower'").
Proof.
  split; [reflexivity|]. split; [reflexivity|].
  exact (Decision.level_not_text_diagnostic numeric_level_record (PyInt 3)
           eq_refl eq_refl eq_refl eq_refl).
Defined.

Lemma answer_depends_on_read_fields_witness :
  lowered_level (item repair_instructions_record "complexity_level")
  = lowered_level (item reordered_record "complexity_level")
  /\ handle_claude_response (PyDict repair_instructions_record)
     = handle_claude_response (PyDict reordered_record).
Proof.
  split; [reflexivity|].
  apply Decision.answer_depends_on_read_fields; [|reflexivity].
  intros field [<- | [<- | [<- | [<- | []]]]]; reflexivity.
Defined.

Lemma text_and_record_agree_witness :
  json_loads model_number_text = Return (PyDict model_number_record)
  /\ generate_response (PyStr model_number_text)
     = generate_response (PyDict model_number_record).
Proof.
  assert (json_loads model_number_text = Return (PyDict model_number_record))
    as Hload by (vm_compute; reflexivity).
  split; [exact Hload|].
  exact (Decision.text_and_record_agree model_number_text
           model_number_record Hload).
Defined.

(** *** The prompt store *)

Lemma prompts_loaded_witness :
  @yaml_safe_load (world timeout)
  = Return (PyDict [("prompts", prompts_of_file)])
  /\ @load_prompts_from_yaml (world timeout) = Return prompts_of_file.
Proof.
  split; [reflexivity|].
  apply (proj2 (@PromptStore.prompts_loaded (world timeout)
                  [("prompts", prompts_of_file)] prompts_of_file eq_refl)).
  repeat split.
Defined.

Lemma prompts_not_loaded_witness :
  @load_prompts_from_yaml (world_without_file timeout)
  = Raise (Exn FileNotFoundError
             "Prompting YAML file not found: prompting.yaml")
  /\ @load_prompts_from_yaml (world_with_file (PyDict []))
     = Raise (Exn ValueError
                "Invalid YAML structure: 'prompts' key not found").
Proof.
  split.
  - exact (proj1 (@PromptStore.prompts_not_loaded
                    (world_without_file timeout)) eq_refl).
  - exact (proj2 (@PromptStore.prompts_not_loaded
                    (world_with_file (PyDict [])))
             (PyDict []) eq_refl eq_refl (or_introl eq_refl)).
Defined.

Lemma prompt_lookup_witness :
  @load_prompts_from_yaml (world timeout) = Return prompts_of_file
  /\ @get_prompt_content Reference.runtime (world timeout) "repair_analysis"
     = Return (PyStr "Classify the repair request.")
  /\ @get_prompt_content Reference.runtime (world timeout) "billing"
     = Raise (Exn KeyError
                (String Json.dquote
                   ("Prompt key 'billing' not found in YAML configuration"
                    ++ String Json.dquote ""))).
Proof.
  split; [reflexivity|]. split.
  - refine (proj1 (proj2 (@PromptStore.prompt_lookup Reference.runtime
                            (world timeout) _ "repair_analysis" eq_refl))
              _ "Classify the repair request." eq_refl eq_refl _).
    discriminate.
  - exact (proj1 (@PromptStore.prompt_lookup Reference.runtime
                    (world timeout) _ "billing" eq_refl) eq_refl).
Defined.

Example available_prompts_of_file :
  @get_available_prompts (world timeout)
  = Return (PyList [PyStr "repair_analysis"]).
Proof. reflexivity. Qed.

Example available_prompts_without_file :
  @get_available_prompts (world_without_file timeout) = Return (PyList []).
Proof. reflexivity. Qed.

(** *** The client and the gateway *)

Lemma client_failure_gives_none_witness :
  @getenv (world_without_key (Return (ok (message_body "Hello."))))
    "CLAUDE_API_KEY" = None
  /\ @send_claude_request
       (world_without_key (Return (ok (message_body "Hello."))))
       some_payload
     = Return PyNone.
Proof.
  split; [reflexivity|].
  exact (@Completion.client_failure_gives_none
           (world_without_key (Return (ok (message_body "Hello."))))
           some_payload (or_introl eq_refl)).
Defined.

Lemma misconfigured_is_error_witness :
  @yaml_exists (world_without_file (Return (ok (message_body "Hello."))))
  = false
  /\ @handle_prompt Reference.runtime
       (world_without_file (Return (ok (message_body "Hello."))))
       "My tap drips."
     = Return (PyDict [("status", PyStr "error");
                       ("message",
                        PyStr "Failed to get response from Claude API")]).
Proof.
  split; [reflexivity|].
  exact (@EndToEnd.misconfigured_is_error Reference.runtime
           (world_without_file (Return (ok (message_body "Hello."))))
           "My tap drips." (or_introl eq_refl)).
Defined.

Lemma transport_failure_is_error_witness :
  (forall url body headers t, exists e,
      @requests_post (world timeout) url body headers t = Raise e)
  /\ @handle_prompt Reference.runtime (world timeout) "My tap drips."
     = Return (PyDict [("status", PyStr "error");
                       ("message",
                        PyStr "Failed to get response from Claude API")]).
Proof.
  assert (forall url body headers t, exists e,
             @requests_post (world timeout) url body headers t = Raise e)
    as Hfail by (intros; eexists; reflexivity).
  split; [exact Hfail|].
  exact (@EndToEnd.transport_failure_is_error Reference.runtime
           (world timeout) "My tap drips." Hfail).
Defined.

Lemma prompt_answered_witness :
  @get_prompt_content Reference.runtime
    (world (Return (ok (message_body "Replace the washer."))))
    "repair_analysis"
  = Return (PyStr "Classify the repair request.")
  /\ @process_prompt Reference.runtime
       (world (Return (ok (message_body "Replace the washer."))))
       "My tap drips." "" "repair_analysis"
     = Return (PyStr "Replace the washer.")
  /\ @handle_prompt Reference.runtime
       (world (Return (ok (message_body "Replace the washer."))))
       "My tap drips."
     = Return (PyDict [("status", PyStr "success");
                       ("response", PyStr "Replace the washer.")]).
Proof.
  split; [reflexivity|].
  destruct (@EndToEnd.prompt_answered Reference.runtime
              (world (Return (ok (message_body "Replace the washer."))))
              "My tap drips." "Classify the repair request."
              "test-key" (ok (message_body "Replace the washer."))
              [("type", PyStr "text"); ("text", PyStr "Replace the washer.")]
              "Replace the washer."
              eq_refl eq_refl ltac:(discriminate) eq_refl eq_refl eq_refl
              eq_refl ltac:(discriminate))
    as (Hp & answer & Ha & Hh).
  split; [exact Hp|].
  rewrite Hh. vm_compute in Ha. injection Ha as <-. reflexivity.
Defined.

Lemma reply_without_text_is_error_witness :
  status_code (ok no_text_body) = 200%Z
  /\ lacks_text (ok no_text_body) = true
  /\ @handle_prompt Reference.runtime (world (Return (ok no_text_body)))
       "My tap drips."
     = Return (PyDict [("status", PyStr "error");
                       ("message",
                        PyStr "Failed to get response from Claude API")]).
Proof.
  split; [reflexivity|]. split; [reflexivity|].
  refine (@EndToEnd.reply_without_text_is_error Reference.runtime
            (world (Return (ok no_text_body))) "My tap drips." "test-key"
            (ok no_text_body) eq_refl _ (fun _ => eq_refl) eq_refl eq_refl).
  discriminate.
Defined.

End Checks.
